(** * Daily kanban: day rollover, archiving and the task operations

    A shallow embedding of [app.py], the Flask application of the
    repository: the two tables ([Setting], [Task]), the rollover routine
    [check_rollover_and_archive] and the route handlers that call it.

    Conventions of the model.
    - A [datetime.date] is its proleptic Gregorian ordinal
      ([date.toordinal()]); comparison of dates is comparison of ordinals
      and [d + timedelta(days=1)] is [d + 1].  The calendar functions of
      the [datetime] module that the program relies on ([isoformat],
      [fromisoformat], [isocalendar], [year], [month]) are written out
      after the module's own algorithms.
    - A [datetime] value ([datetime.utcnow()]) is an opaque number.
    - The clock is read once per request: every handler takes the value of
      [date.today()] and of [datetime.utcnow()] as arguments.
    - The database is a record of the two tables; [db.session.commit()]
      is the identity on it, since every request runs to completion.  An
      INTEGER of SQLite has 64 bits: a commit or a query that is given a
      larger number raises [OverflowError] and writes nothing.
    - A [str] is carried as its UTF-8 encoding, a [string] of bytes.
    - The library functions are those of Python 3.11: [int()],
      [str.strip()] and [date.fromisoformat()] are written out as that
      version has them. *)

From Stdlib Require Import ZArith Lia List Bool Ascii String.
From stdpp Require Import base option list gmap strings sorting pretty.
From Equations Require Import Equations.

Local Open Scope string_scope.
Local Open Scope Z_scope.
Local Open Scope list_scope.

(** ** Calendar: the [datetime.date] operations used by the program *)

Module Calendar.

Definition date := Z.

Definition MINYEAR : Z := 1.
Definition MAXYEAR : Z := 9999.
Definition MAXORDINAL : Z := 3652059.

(** The ordinals that are dates: [date.min .. date.max]. *)
Definition valid_date (d : date) : bool := (1 <=? d) && (d <=? MAXORDINAL).

Definition is_leap (year : Z) : bool :=
  (year mod 4 =? 0) && (negb (year mod 100 =? 0) || (year mod 400 =? 0)).

Definition DAYS_IN_MONTH (month : Z) : Z :=
  match month with
  | 1 => 31 | 2 => 28 | 3 => 31 | 4 => 30 | 5 => 31 | 6 => 30
  | 7 => 31 | 8 => 31 | 9 => 30 | 10 => 31 | 11 => 30 | 12 => 31
  | _ => -1
  end.

Definition DAYS_BEFORE_MONTH (month : Z) : Z :=
  match month with
  | 1 => 0 | 2 => 31 | 3 => 59 | 4 => 90 | 5 => 120 | 6 => 151
  | 7 => 181 | 8 => 212 | 9 => 243 | 10 => 273 | 11 => 304 | 12 => 334
  | _ => -1
  end.

Definition b2z (b : bool) : Z := if b then 1 else 0.

Definition days_before_year (year : Z) : Z :=
  let y := year - 1 in y * 365 + y / 4 - y / 100 + y / 400.

Definition days_in_month_l (leap : bool) (month : Z) : Z :=
  if (month =? 2) && leap then 29 else DAYS_IN_MONTH month.

Definition days_before_month_l (leap : bool) (month : Z) : Z :=
  DAYS_BEFORE_MONTH month + b2z ((2 <? month) && leap).

Definition days_in_month (year month : Z) : Z :=
  days_in_month_l (is_leap year) month.

Definition days_before_month (year month : Z) : Z :=
  days_before_month_l (is_leap year) month.

Definition ymd2ord (year month day : Z) : Z :=
  days_before_year year + days_before_month year month + day.

Definition DI400Y : Z := 146097.
Definition DI100Y : Z := 36524.
Definition DI4Y : Z := 1461.

(** Month and day of the year's [n]-th day (origin 0), the tail of
    [_ord2ymd]. *)
Definition month_day (leapyear : bool) (n : Z) : Z * Z :=
  let month := Z.shiftr (n + 50) 5 in
  let preceding := days_before_month_l leapyear month in
  if n <? preceding
  then (month - 1, n - (preceding - days_in_month_l leapyear (month - 1)) + 1)
  else (month, n - preceding + 1).

Definition ord2ymd (ordinal : Z) : Z * Z * Z :=
  let n := ordinal - 1 in
  let n400 := n / DI400Y in
  let n := n mod DI400Y in
  let year := n400 * 400 + 1 in
  let n100 := n / DI100Y in
  let n := n mod DI100Y in
  let n4 := n / DI4Y in
  let n := n mod DI4Y in
  let n1 := n / 365 in
  let n := n mod 365 in
  let year := year + n100 * 100 + n4 * 4 + n1 in
  if (n1 =? 4) || (n100 =? 4) then (year - 1, 12, 31)
  else
    let leapyear := (n1 =? 3) && (negb (n4 =? 24) || (n100 =? 3)) in
    let '(month, day) := month_day leapyear n in
    (year, month, day).

Definition year_of (d : date) : Z := fst (fst (ord2ymd d)).
Definition month_of (d : date) : Z := snd (fst (ord2ymd d)).
Definition day_of (d : date) : Z := snd (ord2ymd d).

(** [date.isocalendar()]: ISO year, ISO week number, ISO weekday. *)
Definition isoweek1monday (year : Z) : Z :=
  let firstday := ymd2ord year 1 1 in
  let firstweekday := (firstday + 6) mod 7 in
  let week1monday := firstday - firstweekday in
  if 3 <? firstweekday then week1monday + 7 else week1monday.

Definition isocalendar (d : date) : Z * Z * Z :=
  let year := year_of d in
  let week1monday := isoweek1monday year in
  let week := (d - week1monday) / 7 in
  let day := (d - week1monday) mod 7 in
  if week <? 0 then
    let year := year - 1 in
    let week1monday := isoweek1monday year in
    (year, (d - week1monday) / 7 + 1, (d - week1monday) mod 7 + 1)
  else if (52 <=? week) && (isoweek1monday (year + 1) <=? d) then
    (year + 1, 1, day + 1)
  else (year, week + 1, day + 1).

(** *** Decimal text *)

Definition digit_char (d : Z) : ascii := ascii_of_nat (48 + Z.to_nat d).

Definition char_digit (c : ascii) : option Z :=
  let n := Z.of_nat (nat_of_ascii c) in
  if (48 <=? n) && (n <=? 57) then Some (n - 48) else None.

(** ["%02d" % n] and ["%04d" % n] for the values a date has. *)
Definition pad2 (n : Z) : string :=
  String (digit_char (n / 10)) (String (digit_char (n mod 10)) EmptyString).

Definition pad4 (n : Z) : string :=
  String (digit_char (n / 1000))
    (String (digit_char ((n / 100) mod 10))
       (String (digit_char ((n / 10) mod 10))
          (String (digit_char (n mod 10)) EmptyString))).

(** [date.isoformat()]: ["%04d-%02d-%02d"]. *)
Definition isoformat (d : date) : string :=
  let '(y, m, dd) := ord2ymd d in
  pad4 y +:+ "-" +:+ pad2 m +:+ "-" +:+ pad2 dd.

Definition digits2 (a b : ascii) : option Z :=
  match char_digit a, char_digit b with
  | Some x, Some y => Some (10 * x + y)
  | _, _ => None
  end.

Definition digits4 (a b c d : ascii) : option Z :=
  match digits2 a b, digits2 c d with
  | Some x, Some y => Some (100 * x + y)
  | _, _ => None
  end.

(** The constructor [date(year, month, day)]: [None] stands for its
    [ValueError]. *)
Definition mkdate (year month day : Z) : option date :=
  if (MINYEAR <=? year) && (year <=? MAXYEAR)
     && (1 <=? month) && (month <=? 12)
     && (1 <=? day) && (day <=? days_in_month year month)
  then Some (ymd2ord year month day)
  else None.

(** [_isoweek_to_gregorian(year, week, day)] followed by the [date]
    constructor: the day [day] of ISO week [week] of ISO year [year].  A
    year has a week 53 when it starts on a Thursday, or on a Wednesday and
    is a leap year. *)
Definition isoweek_to_date (year week day : Z) : option date :=
  let first_weekday := ymd2ord year 1 1 mod 7 in
  let week_ok :=
    ((0 <? week) && (week <? 53))
    || ((week =? 53)
        && ((first_weekday =? 4) || ((first_weekday =? 3) && is_leap year))) in
  if (MINYEAR <=? year) && (year <=? MAXYEAR) && week_ok
     && (0 <? day) && (day <? 8)
  then
    let ordinal := isoweek1monday year + (week - 1) * 7 + (day - 1) in
    if valid_date ordinal then Some ordinal else None
  else None.

(** Whether the text goes on with the character [c]. *)
Definition next_is (c : ascii) (cs : list ascii) : bool :=
  match cs with
  | c' :: _ => Ascii.eqb c' c
  | [] => false
  end.

(** The date parser of [date.fromisoformat] (Python 3.11): [YYYY-MM-DD],
    [YYYYMMDD], [YYYY-Www], [YYYY-Www-D], [YYYYWww] and [YYYYWwwD], with
    ASCII digits.  It does not look at what follows the last field. *)
Definition parse_isoformat_date (cs : list ascii) : option date :=
  match cs with
  | y1 :: y2 :: y3 :: y4 :: r =>
      match digits4 y1 y2 y3 y4 with
      | None => None
      | Some year =>
          let has_sep := next_is "-"%char r in
          let r := if has_sep then tl r else r in
          if next_is "W"%char r then
            match tl r with
            | w1 :: w2 :: r =>
                match digits2 w1 w2 with
                | None => None
                | Some week =>
                    match r with
                    | [] => isoweek_to_date year week 1
                    | _ :: _ =>
                        if has_sep && negb (next_is "-"%char r) then None
                        else
                          match (if has_sep then tl r else r) with
                          | d :: _ =>
                              match char_digit d with
                              | Some day => isoweek_to_date year week day
                              | None => None
                              end
                          | [] => None
                          end
                    end
                end
            | _ => None
            end
          else
            match r with
            | m1 :: m2 :: r =>
                match digits2 m1 m2 with
                | None => None
                | Some month =>
                    if has_sep && negb (next_is "-"%char r) then None
                    else
                      match (if has_sep then tl r else r) with
                      | d1 :: d2 :: _ =>
                          match digits2 d1 d2 with
                          | Some day => mkdate year month day
                          | None => None
                          end
                      | _ => None
                      end
                end
            | _ => None
            end
      end
  | _ => None
  end.

(** [date.fromisoformat(s)] as of Python 3.11; [None] stands for the
    [ValueError] it raises.  The text has 7, 8 or 10 bytes. *)
Definition fromisoformat (s : string) : option date :=
  let cs := list_ascii_of_string s in
  let n := length cs in
  if (n =? 7)%nat || (n =? 8)%nat || (n =? 10)%nat
  then parse_isoformat_date cs
  else None.

End Calendar.

Import Calendar.

(** ** The database: the tables [Setting] and [Task] *)

Definition timestamp := Z.

(** A row of [Task].  The primary key [Task.id] is the key of the table
    below, not a field of the row. *)
Record Task := mkTask {
  title : string;
  description : option string;      (* nullable *)
  column_index : Z;
  created_at : timestamp;
  task_date : date;
  archived : bool;
  archived_at : option timestamp    (* nullable *)
}.

(** [settings] maps [Setting.key] to [Setting.value] (the key is unique);
    a row whose value is NULL reads like a missing row and is not
    distinguished from it.  [tasks] maps [Task.id] to its row. *)
Record db := mkDb {
  settings : gmap string string;
  tasks : gmap Z Task
}.

Definition Setting_get (key : string) (s : db) : option string :=
  settings s !! key.

Definition Setting_set (key value : string) (s : db) : db :=
  {| settings := <[key := value]> (settings s); tasks := tasks s |}.

Definition LAST_ACTIVE : string := "last_active_date".

(** [init_db], run before the first request: default column names and a
    first watermark. *)
Definition init_db (today : date) (s : db) : db :=
  let s :=
    match Setting_get "columns" s with
    | Some cols =>
        if String.eqb cols "" then
          Setting_set "columns" "Backlog,To Do,In Progress,Review,Done" s
        else s
    | None => Setting_set "columns" "Backlog,To Do,In Progress,Review,Done" s
    end in
  match Setting_get LAST_ACTIVE s with
  | Some last =>
      if String.eqb last "" then Setting_set LAST_ACTIVE (isoformat today) s
      else s
  | None => Setting_set LAST_ACTIVE (isoformat today) s
  end.

(** ** Rollover and archiving *)

Definition set_archived (now : timestamp) (t : Task) : Task :=
  {| title := title t; description := description t;
     column_index := column_index t; created_at := created_at t;
     task_date := task_date t;
     archived := true; archived_at := Some now |}.

(** One iteration of the loop: the rows that
    [filter_by(task_date=day, archived=False)] selects are updated in
    place. *)
Definition archive_tasks_of (day : date) (now : timestamp)
    (tbl : gmap Z Task) : gmap Z Task :=
  (fun t => if (task_date t =? day) && negb (archived t)
            then set_archived now t else t) <$> tbl.

(** [while day < today: ...; day = day + timedelta(days=1)] *)
Equations? archive_days (today : date) (now : timestamp) (day : date)
    (tbl : gmap Z Task) : gmap Z Task by wf (Z.to_nat (today - day)) lt :=
  archive_days today now day tbl with Z_lt_dec day today := {
    | left _ => archive_days today now (day + 1) (archive_tasks_of day now tbl)
    | right _ => tbl }.
Proof. lia. Qed.

Definition check_rollover_and_archive (today : date) (now : timestamp)
    (s : db) : db :=
  match Setting_get LAST_ACTIVE s with
  | None => Setting_set LAST_ACTIVE (isoformat today) s
  | Some last =>
      if String.eqb last "" then Setting_set LAST_ACTIVE (isoformat today) s
      else
        match fromisoformat last with
        | None => Setting_set LAST_ACTIVE (isoformat today) s
        | Some last_date =>
            if today <=? last_date then s
            else
              Setting_set LAST_ACTIVE (isoformat today)
                {| settings := settings s;
                   tasks := archive_days today now last_date (tasks s) |}
        end
  end.

(** ** Requests and responses *)

(** A field of a request body: missing, JSON [null], or a value. *)
Inductive field (A : Type) : Type :=
  | Absent
  | Null
  | Val (a : A).
Arguments Absent {A}.
Arguments Null {A}.
Arguments Val {A} a.

(** [data.get(k)] and [data.get(k, default)]; [None] is Python's [None]. *)
Definition get {A} (f : field A) : option A :=
  match f with Val a => Some a | _ => None end.

Definition get_default {A} (f : field A) (default : option A) : option A :=
  match f with Absent => default | Null => None | Val a => Some a end.

(** A [float]: a finite one is [m * 2^e], the others are the infinities
    and NaN (which the JSON parser of Python reads). *)
Inductive pyfloat : Type :=
  | FFinite (m e : Z)
  | FInf
  | FNaN.

(** A value given for [column_index]: a JSON integer, text (a JSON string
    or a form value), a JSON boolean, a JSON number that is a [float], or
    a JSON array or object. *)
Inductive pyval : Type :=
  | PInt (z : Z)
  | PStr (s : string)
  | PBool (b : bool)
  | PFloat (x : pyfloat)
  | PCollection.

(** The fields the handlers read.  [p_id] is carried at the type of the
    primary key (the number a JSON integer is, or that SQLite reads a form
    value as), [p_title] and [p_description] as text; [p_column_index] is
    carried raw, because the handlers convert it with [int()]. *)
Record payload := mkPayload {
  p_id : field Z;
  p_title : field string;
  p_description : field string;
  p_column_index : field pyval
}.

Definition is_absent {A} (f : field A) : bool :=
  match f with Absent => true | _ => false end.

(** An empty dict is falsy. *)
Definition payload_empty (p : payload) : bool :=
  is_absent (p_id p) && is_absent (p_title p)
  && is_absent (p_description p) && is_absent (p_column_index p).

(** [request.json] is [None] when the request carries no JSON body. *)
Record request := mkRequest {
  json : option payload;
  form : payload
}.

(** [request.json or request.form] *)
Definition json_or_form (r : request) : payload :=
  match json r with
  | Some p => if payload_empty p then form r else p
  | None => form r
  end.

Inductive exn : Type :=
  | TypeError
  | ValueError
  | AttributeError
  | OverflowError
  | IntegrityError.

(** *** Text *)

Definition byte (c : ascii) : Z := Z.of_nat (nat_of_ascii c).

(** A continuation byte of UTF-8, and what it carries. *)
Definition is_cont (c : ascii) : bool := (128 <=? byte c) && (byte c <? 192).
Definition cont (c : ascii) : Z := byte c - 128.

(** The characters of a UTF-8 text, each as its code point and its bytes;
    [None] when the bytes are not UTF-8 (they are the text of no [str]). *)
Fixpoint utf8_chars (cs : list ascii) : option (list (Z * list ascii)) :=
  match cs with
  | [] => Some []
  | a :: r =>
      if byte a <? 128 then cons (byte a, [a]) <$> utf8_chars r
      else if byte a <? 224 then
        match r with
        | b :: r =>
            let cp := (byte a - 192) * 64 + cont b in
            if is_cont b && (128 <=? cp)
            then cons (cp, [a; b]) <$> utf8_chars r
            else None
        | _ => None
        end
      else if byte a <? 240 then
        match r with
        | b :: c :: r =>
            let cp := (byte a - 224) * 4096 + cont b * 64 + cont c in
            if is_cont b && is_cont c && (2048 <=? cp)
               && negb ((55296 <=? cp) && (cp <=? 57343))
            then cons (cp, [a; b; c]) <$> utf8_chars r
            else None
        | _ => None
        end
      else
        match r with
        | b :: c :: d :: r =>
            let cp :=
              (byte a - 240) * 262144 + cont b * 4096 + cont c * 64 + cont d in
            if is_cont b && is_cont c && is_cont d
               && (65536 <=? cp) && (cp <=? 1114111)
            then cons (cp, [a; b; c; d]) <$> utf8_chars r
            else None
        | _ => None
        end
  end.

(** The white space of [str.isspace] and [str.strip]. *)
Definition unicode_space (cp : Z) : bool :=
  ((9 <=? cp) && (cp <=? 13)) || ((28 <=? cp) && (cp <=? 32))
  || (cp =? 133) || (cp =? 160) || (cp =? 5760)
  || ((8192 <=? cp) && (cp <=? 8202))
  || (cp =? 8232) || (cp =? 8233) || (cp =? 8239) || (cp =? 8287)
  || (cp =? 12288).

(** The digit zero of every script that has decimal digits (Unicode 14.0,
    the version of Python 3.11); the digits 1 to 9 follow their zero. *)
Definition DECIMAL_ZEROS : list Z :=
  [48; 1632; 1776; 1984; 2406; 2534; 2662; 2790; 2918; 3046; 3174; 3302;
   3430; 3558; 3664; 3792; 3872; 4160; 4240; 6112; 6160; 6470; 6608; 6784;
   6800; 6992; 7088; 7232; 7248; 42528; 43216; 43264; 43472; 43504; 43600;
   44016; 65296; 66720; 68912; 69734; 69872; 69942; 70096; 70384; 70736;
   70864; 71248; 71360; 71472; 71904; 72016; 72784; 73040; 73120; 92768;
   92864; 93008; 120782; 120792; 120802; 120812; 120822; 123200; 123632;
   125264; 130032].

(** The value of a decimal digit. *)
Definition unicode_decimal (cp : Z) : option Z :=
  (fun zero => cp - zero)
    <$> List.find (fun zero => (zero <=? cp) && (cp <? zero + 10))
          DECIMAL_ZEROS.

Fixpoint lstrip {A} (space : A -> bool) (cs : list A) : list A :=
  match cs with
  | c :: r => if space c then lstrip space r else cs
  | [] => []
  end.

Definition strip {A} (space : A -> bool) (cs : list A) : list A :=
  rev (lstrip space (rev (lstrip space cs))).

(** *** [int()] *)

(** The white space [int()] skips around a number: the white space of C
    below 128 (not the separators 28 to 31), that of Unicode above. *)
Definition int_space (cp : Z) : bool :=
  ((9 <=? cp) && (cp <=? 13)) || (cp =? 32)
  || ((128 <=? cp) && unicode_space cp).

(** Decimal digits, single underscores allowed between digits; the second
    number counts the digits. *)
Fixpoint int_digits (acc digits : Z) (after_underscore : bool)
    (cps : list Z) : option (Z * Z) :=
  match cps with
  | [] => if after_underscore then None else Some (acc, digits)
  | c :: r =>
      if c =? 95 then
        if after_underscore then None else int_digits acc digits true r
      else
        match unicode_decimal c with
        | Some d => int_digits (10 * acc + d) (digits + 1) false r
        | None => None
        end
  end.

(** [sys.get_int_max_str_digits()], as Python starts with. *)
Definition MAX_STR_DIGITS : Z := 4300.

(** [int(s)] for text [s]: white space, a sign, decimal digits of any
    script, white space; [None] stands for its [ValueError]. *)
Definition int_of_text (s : string) : option Z :=
  match utf8_chars (list_ascii_of_string s) with
  | None => None
  | Some chars =>
      let cps := strip int_space chars.*1 in
      let '(neg, ds) :=
        match cps with
        | c :: r =>
            if c =? 45 then (true, r)
            else if c =? 43 then (false, r)
            else (false, cps)
        | [] => (false, cps)
        end in
      match ds with
      | c :: r =>
          match unicode_decimal c with
          | Some d =>
              match int_digits d 1 false r with
              | Some (n, digits) =>
                  if digits <=? MAX_STR_DIGITS
                  then Some (if neg then - n else n)
                  else None
              | None => None
              end
          | None => None
          end
      | [] => None
      end
  end.

(** [int(x)] for a [float]: the fraction is cut off. *)
Definition int_of_float (x : pyfloat) : Z + exn :=
  match x with
  | FFinite m e => inl (if 0 <=? e then m * 2 ^ e else Z.quot m (2 ^ (- e)))
  | FInf => inr OverflowError
  | FNaN => inr ValueError
  end.

(** [int(v)]: [int(None)] and [int] of an array or object raise
    [TypeError], text that is not a number raises [ValueError]. *)
Definition py_int (v : option pyval) : Z + exn :=
  match v with
  | None => inr TypeError
  | Some (PInt z) => inl z
  | Some (PStr s) =>
      match int_of_text s with
      | Some z => inl z
      | None => inr ValueError
      end
  | Some (PBool b) => inl (b2z b)
  | Some (PFloat x) => int_of_float x
  | Some PCollection => inr TypeError
  end.

(** What an INTEGER column of SQLite holds. *)
Definition in_int64 (z : Z) : bool :=
  (- 2 ^ 63 <=? z) && (z <? 2 ^ 63).

(** [Task.to_dict()]; [created_at] is left as the time stamp. *)
Record task_dict := mkDict {
  d_id : Z;
  d_title : string;
  d_description : string;
  d_column_index : Z;
  d_created_at : timestamp;
  d_task_date : string;
  d_archived : bool
}.

Definition to_dict (i : Z) (t : Task) : task_dict :=
  {| d_id := i;
     d_title := title t;
     d_description := default "" (description t);
     d_column_index := column_index t;
     d_created_at := created_at t;
     d_task_date := isoformat (task_date t);
     d_archived := archived t |}.

(** The JSON bodies the handlers return. *)
Inductive body : Type :=
  | BError (msg : string)     (* {'error': msg} *)
  | BOk                        (* {'ok': True} *)
  | BTask (d : task_dict).     (* {'task': {...}} *)

(** What a handler does: it returns a value, calls [abort(status)], or an
    exception leaves it. *)
Inductive outcome (A : Type) : Type :=
  | Return (a : A)
  | Abort (status : Z)
  | Raise (e : exn).
Arguments Return {A} a.
Arguments Abort {A} status.
Arguments Raise {A} e.

(** [jsonify(b), status]; a handler that gives no status answers 200. *)
Definition response : Type := Z * body.

(** ** Queries *)

(** The rows of [Task] in the order of their ids. *)
Definition id_le (a b : Z * Task) : Prop := a.1 <= b.1.

#[global] Instance id_le_dec : RelDecision id_le.
Proof. intros a b. unfold id_le. apply Z_le_dec. Defined.

Definition rows (tbl : gmap Z Task) : list (Z * Task) :=
  merge_sort id_le (map_to_list tbl).

(** The id an insert gets: one more than the largest id in use, 1 in an
    empty table. *)
Definition next_id (tbl : gmap Z Task) : Z :=
  match (map_to_list tbl).*1 with
  | [] => 1
  | k :: ks => foldr Z.max k ks + 1
  end.

(** The task is of today and not archived. *)
Definition editable (today : date) (t : Task) : bool :=
  negb (negb (task_date t =? today) || archived t).

(** ** Route handlers *)

(** [Task.query.get(task_id)]: the row and its id.  [get(None)] finds
    nothing.  An id that SQLite cannot take as an INTEGER raises
    [OverflowError]; the id of a row is never such a number. *)
Definition query_get (task_id : option Z) (s : db)
    : option (Z * Task) + exn :=
  match task_id with
  | None => inl None
  | Some i =>
      match tasks s !! i with
      | Some t => inl (Some (i, t))
      | None => if in_int64 i then inl None else inr OverflowError
      end
  end.

(** [POST /add_task].  The commit raises [OverflowError] on a column
    index that SQLite cannot take, and nothing is inserted.  (The id comes
    from SQLite: one more than the largest id in use.) *)
Definition add_task (today : date) (now : timestamp) (r : request) (s : db)
    : outcome response * db :=
  let s := check_rollover_and_archive today now s in
  let data := json_or_form r in
  let title := get (p_title data) in
  let description := get_default (p_description data) (Some "") in
  match py_int (get_default (p_column_index data) (Some (PInt 0))) with
  | inr e => (Raise e, s)
  | inl col =>
      match title with
      | None => (Return (400, BError "title required"), s)
      | Some title =>
          if String.eqb title "" then
            (Return (400, BError "title required"), s)
          else if in_int64 col then
            let t := {| title := title; description := description;
                        column_index := col; created_at := now;
                        task_date := today;
                        archived := false; archived_at := None |} in
            let i := next_id (tasks s) in
            (Return (200, BTask (to_dict i t)),
             {| settings := settings s; tasks := <[i := t]> (tasks s) |})
          else (Raise OverflowError, s)
      end
  end.

Definition set_column_index (c : Z) (t : Task) : Task :=
  {| title := title t; description := description t;
     column_index := c; created_at := created_at t;
     task_date := task_date t;
     archived := archived t; archived_at := archived_at t |}.

(** [POST /move_task].  The commit raises [OverflowError] on a column
    index that SQLite cannot take, and the row keeps its column. *)
Definition move_task (today : date) (now : timestamp) (r : request) (s : db)
    : outcome response * db :=
  let s := check_rollover_and_archive today now s in
  match json r with
  | None => (Raise AttributeError, s)
  | Some data =>
      let task_id := get (p_id data) in
      match py_int (get (p_column_index data)) with
      | inr e => (Raise e, s)
      | inl new_col =>
          match query_get task_id s with
          | inr e => (Raise e, s)
          | inl None => (Return (404, BError "task not found"), s)
          | inl (Some (i, t)) =>
              if negb (task_date t =? today) || archived t then
                (Return (400, BError "task is archived or not editable"), s)
              else if in_int64 new_col then
                (Return (200, BOk),
                 {| settings := settings s;
                    tasks := <[i := set_column_index new_col t]> (tasks s) |})
              else (Raise OverflowError, s)
          end
      end
  end.

Definition set_text (ti : string) (de : option string) (t : Task) : Task :=
  {| title := ti; description := de;
     column_index := column_index t; created_at := created_at t;
     task_date := task_date t;
     archived := archived t; archived_at := archived_at t |}.

(** [POST /edit_task]; [title] is [nullable=False], so the commit of a
    NULL title raises. *)
Definition edit_task (today : date) (now : timestamp) (r : request) (s : db)
    : outcome response * db :=
  let s := check_rollover_and_archive today now s in
  let data := json_or_form r in
  let tid := get (p_id data) in
  match query_get tid s with
  | inr e => (Raise e, s)
  | inl None => (Return (404, BError "task not found"), s)
  | inl (Some (i, t)) =>
      if negb (task_date t =? today) || archived t then
        (Return (400, BError "not editable"), s)
      else
        let new_title := get_default (p_title data) (Some (title t)) in
        let new_description :=
          get_default (p_description data) (description t) in
        match new_title with
        | None => (Raise IntegrityError, s)
        | Some ti =>
            let t' := set_text ti new_description t in
            (Return (200, BTask (to_dict i t')),
             {| settings := settings s; tasks := <[i := t']> (tasks s) |})
        end
  end.

(** [POST /delete_task] *)
Definition delete_task (today : date) (now : timestamp) (r : request) (s : db)
    : outcome response * db :=
  let s := check_rollover_and_archive today now s in
  let data := json_or_form r in
  let tid := get (p_id data) in
  match query_get tid s with
  | inr e => (Raise e, s)
  | inl None => (Return (404, BError "task not found"), s)
  | inl (Some (i, t)) =>
      if negb (task_date t =? today) || archived t then
        (Return (400, BError "not deletable"), s)
      else
        (Return (200, BOk),
         {| settings := settings s; tasks := delete i (tasks s) |})
  end.

(** *** The board *)

(** [s.split(sep)] *)
Fixpoint split_on (sep : ascii) (s : string) : list string :=
  match s with
  | EmptyString => [EmptyString]
  | String c r =>
      if Ascii.eqb c sep then EmptyString :: split_on sep r
      else
        match split_on sep r with
        | h :: t => String c h :: t
        | [] => [String c EmptyString]
        end
  end.

(** [while len(cols) < 5: cols.append(f'Column {len(cols)+1}')] *)
Equations? pad_cols (cols : list string) : list string
    by wf (5 - length cols)%nat lt :=
  pad_cols cols with lt_dec (length cols) 5 := {
    | left _ =>
        pad_cols (cols ++ ["Column " +:+ pretty (length cols + 1)%nat])
    | right _ => cols }.
Proof. rewrite length_app. simpl. lia. Qed.

Definition board_columns (s : db) : list string :=
  let cols_raw := default "" (Setting_get "columns" s) in
  let cols :=
    List.filter (fun c => negb (String.eqb c "")) (split_on ","%char cols_raw) in
  let cols := if (5 <? length cols)%nat then take 5 cols else cols in
  pad_cols cols.

(** [tasks_by_col.setdefault(t.column_index, []).append(t)] *)
Definition add_to_col (m : gmap Z (list (Z * Task))) (it : Z * Task)
    : gmap Z (list (Z * Task)) :=
  <[column_index it.2 := default [] (m !! column_index it.2) ++ [it]]> m.

(** [{i: [] for i in range(n)}] *)
Definition empty_cols (n : nat) : gmap Z (list (Z * Task)) :=
  list_to_map ((fun i : nat => (Z.of_nat i, [])) <$> seq 0 n).

(** What [index.html] is rendered from. *)
Record index_view := mkIndexView {
  columns : list string;
  tasks_by_col : gmap Z (list (Z * Task));
  today_text : string
}.

(** [GET /] *)
Definition index (today : date) (now : timestamp) (s : db)
    : index_view * db :=
  let s := check_rollover_and_archive today now s in
  let cols := board_columns s in
  let tasks_today :=
    List.filter (fun it : Z * Task => task_date it.2 =? today) (rows (tasks s)) in
  let by_col := foldl add_to_col (empty_cols (length cols)) tasks_today in
  ({| columns := cols; tasks_by_col := by_col;
      today_text := isoformat today |}, s).

(** *** The archive *)

Definition date_ge (a b : date) : Prop := b <= a.

#[global] Instance date_ge_dec : RelDecision date_ge.
Proof. intros a b. unfold date_ge. apply Z_le_dec. Defined.

(** [GET /archive]: the dates that have archived tasks, latest first. *)
Definition archive_index (today : date) (now : timestamp) (s : db)
    : list string * db :=
  let s := check_rollover_and_archive today now s in
  let dates :=
    (fun it : Z * Task => task_date it.2)
      <$> List.filter (fun it : Z * Task => archived it.2) (rows (tasks s)) in
  (isoformat <$> merge_sort date_ge (remove_dups dates), s).

(** [GET /archive/day/<day>] *)
Definition archive_day (today : date) (now : timestamp) (day : string)
    (s : db) : outcome (list (Z * Task) * string) * db :=
  let s := check_rollover_and_archive today now s in
  match fromisoformat day with
  | None => (Abort 404, s)
  | Some day_date =>
      (Return
         (List.filter (fun it : Z * Task => task_date it.2 =? day_date)
            (rows (tasks s)), day), s)
  end.

(** [GET /archive/week/<year>/<week>] *)
Definition archive_week (today : date) (now : timestamp) (year week : string)
    (s : db) : outcome (list (Z * Task) * string) * db :=
  let s := check_rollover_and_archive today now s in
  match int_of_text year, int_of_text week with
  | Some y, Some w =>
      (Return
         (List.filter
            (fun it : Z * Task =>
               ((isocalendar (task_date it.2)).1.1 =? y)
               && ((isocalendar (task_date it.2)).1.2 =? w))
            (List.filter (fun it : Z * Task => archived it.2) (rows (tasks s))),
          "Week " +:+ pretty w +:+ ", " +:+ pretty y), s)
  | _, _ => (Abort 404, s)
  end.

(** [GET /archive/month/<year>/<month>] *)
Definition archive_month (today : date) (now : timestamp) (year month : string)
    (s : db) : outcome (list (Z * Task) * string) * db :=
  let s := check_rollover_and_archive today now s in
  match int_of_text year, int_of_text month with
  | Some y, Some m =>
      (Return
         (List.filter
            (fun it : Z * Task =>
               (year_of (task_date it.2) =? y) && (month_of (task_date it.2) =? m))
            (List.filter (fun it : Z * Task => archived it.2) (rows (tasks s))),
          pretty m +:+ "/" +:+ pretty y), s)
  | _, _ => (Abort 404, s)
  end.

(** [GET /archive/year/<year>] *)
Definition archive_year (today : date) (now : timestamp) (year : string)
    (s : db) : outcome (list (Z * Task) * string) * db :=
  let s := check_rollover_and_archive today now s in
  match int_of_text year with
  | Some y =>
      (Return
         (List.filter (fun it : Z * Task => year_of (task_date it.2) =? y)
            (List.filter (fun it : Z * Task => archived it.2) (rows (tasks s))),
          pretty y), s)
  | None => (Abort 404, s)
  end.

(** ** Requests as operations on the database *)

Inductive operation : Type :=
  | OpCatchUp
  | OpIndex
  | OpAddTask (r : request)
  | OpMoveTask (r : request)
  | OpEditTask (r : request)
  | OpDeleteTask (r : request)
  | OpArchiveIndex
  | OpArchiveDay (day : string)
  | OpArchiveWeek (year week : string)
  | OpArchiveMonth (year month : string)
  | OpArchiveYear (year : string).

(** The database a request leaves behind. *)
Definition run (today : date) (now : timestamp) (op : operation) (s : db)
    : db :=
  match op with
  | OpCatchUp => check_rollover_and_archive today now s
  | OpIndex => (index today now s).2
  | OpAddTask r => (add_task today now r s).2
  | OpMoveTask r => (move_task today now r s).2
  | OpEditTask r => (edit_task today now r s).2
  | OpDeleteTask r => (delete_task today now r s).2
  | OpArchiveIndex => (archive_index today now s).2
  | OpArchiveDay day => (archive_day today now day s).2
  | OpArchiveWeek y w => (archive_week today now y w s).2
  | OpArchiveMonth y m => (archive_month today now y m s).2
  | OpArchiveYear y => (archive_year today now y s).2
  end.

(** A run of [check_rollover_and_archive] calls, one clock reading each. *)
Definition catch_up_all (clock : list (date * timestamp)) (s : db) : db :=
  foldl (fun s c => check_rollover_and_archive c.1 c.2 s) s clock.

(** *** Notions the properties are stated with *)

(** The stored watermark, when it reads as a date. *)
Definition watermark (s : db) : option date :=
  Setting_get LAST_ACTIVE s ≫= fromisoformat.

(** The ids of the archived tasks. *)
Definition archived_ids (s : db) : gset Z :=
  dom (filter (fun it : Z * Task => archived it.2 = true) (tasks s)).

(** The table lookup of [_ord2ymd], checked on every day of a year. *)
Definition month_day_chk (leap : bool) (n : Z) : bool :=
  let '(m, dd) := month_day leap n in
  (1 <=? m) && (m <=? 12) && (1 <=? dd) && (dd <=? days_in_month_l leap m)
  && (days_before_month_l leap m + dd =? n + 1).

(** What a rollover from watermark [lo] to clock [hi] does to a row. *)
Definition archive_range (lo hi : date) (now : timestamp) (t : Task) : Task :=
  if (lo <=? task_date t) && (task_date t <? hi) && negb (archived t)
  then set_archived now t else t.

(** Date and archived flag of every task. *)
Definition flags (s : db) : gmap Z (date * bool) :=
  (fun t => (task_date t, archived t)) <$> tasks s.

Definition arch (lo hi : date) (p : date * bool) : date * bool :=
  (p.1, p.2 || ((lo <=? p.1) && (p.1 <? hi))).

(** The watermark is not ahead of the clock, and everything dated before
    the watermark is archived. *)
Definition rollover_inv (today : date) (s : db) : Prop :=
  exists W, watermark s = Some W /\ W <= today
            /\ forall i t, tasks s !! i = Some t -> task_date t < W ->
                           archived t = true.



Definition ValidationError (o : outcome response) : Prop :=
  o = Return (400, BError "title required").




Definition clamp (lo hi x : Z) : Z := Z.max lo (Z.min hi x).

Definition N_columns (s : db) : Z := Z.of_nat (length (board_columns s)).

(** ** Sample data *)

(** Days of 2024, as ordinals. *)
Definition jan05 : date := 738890.
Definition jan10 : date := 738895.
Definition jan11 : date := 738896.
Definition jan12 : date := 738897.
Definition jan13 : date := 738898.
Definition feb01 : date := 738917.
Definition dec30 : date := 739250.

Definition task_T1 : Task :=
  {| title := "T1"; description := Some ""; column_index := 0;
     created_at := 100; task_date := jan10;
     archived := false; archived_at := None |}.

(** Watermark 2024-01-10 and one open task of that day. *)
Definition jan10_db : db :=
  {| settings := {[ LAST_ACTIVE := "2024-01-10" ]};
     tasks := {[ 1 := task_T1 ]} |}.

(** The same after [init_db]: the five default column names are set. *)
Definition jan10_board : db := init_db jan10 jan10_db.

(** The same with the watermark in the basic format. *)
Definition basic_format_db : db :=
  {| settings := {[ LAST_ACTIVE := "20240110" ]};
     tasks := {[ 1 := task_T1 ]} |}.

(** The same with an unreadable watermark. *)
Definition corrupt_db : db :=
  {| settings := {[ LAST_ACTIVE := "not-a-date" ]};
     tasks := {[ 1 := task_T1 ]} |}.

Definition empty_payload : payload :=
  {| p_id := Absent; p_title := Absent; p_description := Absent;
     p_column_index := Absent |}.

Definition json_request (p : payload) : request :=
  {| json := Some p; form := empty_payload |}.

(** [{"id": 1, "column_index": 3}] *)
Definition move_1_to_3 : request :=
  json_request {| p_id := Val 1; p_title := Absent; p_description := Absent;
                  p_column_index := Val (PInt 3) |}.

(** [{"title": "x", "column_index": 7}] *)
Definition add_col_7 : request :=
  json_request {| p_id := Absent; p_title := Val "x"; p_description := Absent;
                  p_column_index := Val (PInt 7) |}.

(** [{"title": "x", "column_index": "abc"}] *)
Definition add_col_abc : request :=
  json_request {| p_id := Absent; p_title := Val "x"; p_description := Absent;
                  p_column_index := Val (PStr "abc") |}.

(** [{"title": "", "column_index": "abc"}] *)
Definition add_untitled_col_abc : request :=
  json_request {| p_id := Absent; p_title := Val ""; p_description := Absent;
                  p_column_index := Val (PStr "abc") |}.

(** [{"title": "x", "column_index": null}] *)
Definition add_col_null : request :=
  json_request {| p_id := Absent; p_title := Val "x"; p_description := Absent;
                  p_column_index := Null |}.

(** [{"title": "x", "column_index": 9223372036854775808}] *)
Definition add_col_2_63 : request :=
  json_request {| p_id := Absent; p_title := Val "x"; p_description := Absent;
                  p_column_index := Val (PInt (2 ^ 63)) |}.

(** [{"id": 1, "column_index": 9223372036854775808}] *)
Definition move_1_to_2_63 : request :=
  json_request {| p_id := Val 1; p_title := Absent; p_description := Absent;
                  p_column_index := Val (PInt (2 ^ 63)) |}.

(** [{"id": 9223372036854775808, "column_index": 3}] *)
Definition move_2_63_to_3 : request :=
  json_request {| p_id := Val (2 ^ 63); p_title := Absent;
                  p_description := Absent;
                  p_column_index := Val (PInt 3) |}.

(** [{"id": 1}] *)
Definition move_no_column : request :=
  json_request {| p_id := Val 1; p_title := Absent; p_description := Absent;
                  p_column_index := Absent |}.

(** A form post, no JSON body. *)
Definition move_form : request :=
  {| json := None;
     form := {| p_id := Val 1; p_title := Absent; p_description := Absent;
                p_column_index := Val (PStr "3") |} |}.

(** [{"id": 1, "title": ""}] *)
Definition edit_1_untitled : request :=
  json_request {| p_id := Val 1; p_title := Val ""; p_description := Absent;
                  p_column_index := Absent |}.

(** [{"id": 1, "title": null}] *)
Definition edit_1_null_title : request :=
  json_request {| p_id := Val 1; p_title := Null; p_description := Absent;
                  p_column_index := Absent |}.

(** An open task of 2024-12-30 and an archived one of the same day. *)
Definition dec30_open : Task :=
  {| title := "open"; description := None; column_index := 1;
     created_at := 100; task_date := dec30;
     archived := false; archived_at := None |}.

Definition dec30_archived : Task :=
  {| title := "done"; description := None; column_index := 6;
     created_at := 100; task_date := dec30;
     archived := true; archived_at := Some 200 |}.

(** Watermark and clock at 2024-12-30. *)
Definition dec30_db : db :=
  {| settings := {[ LAST_ACTIVE := "2024-12-30" ]};
     tasks := {[ 1 := dec30_open; 2 := dec30_archived ]} |}.

(** ** The settings page *)

(** Text given by its bytes. *)
Definition text_of_bytes (l : list Z) : string :=
  string_of_list_ascii ((fun b => ascii_of_nat (Z.to_nat b)) <$> l).

(** [c.strip()]: the white space characters at both ends are dropped. *)
Definition strip_text (c : string) : string :=
  match utf8_chars (list_ascii_of_string c) with
  | Some chars =>
      string_of_list_ascii
        (concat (strip (fun ch => unicode_space ch.1) chars).*2)
  | None => c
  end.

(** [sep.join(l)] *)
Fixpoint join (sep : string) (l : list string) : string :=
  match l with
  | [] => EmptyString
  | x :: r =>
      match r with
      | [] => x
      | _ :: _ => x +:+ sep +:+ join sep r
      end
  end.

(** [while len(cols) < 5: cols.append('')] *)
Equations? pad_empty (cols : list string) : list string
    by wf (5 - length cols)%nat lt :=
  pad_empty cols with lt_dec (length cols) 5 := {
    | left _ => pad_empty (cols ++ [EmptyString])
    | right _ => cols }.
Proof. rewrite length_app. simpl. lia. Qed.

Inductive http_method : Type := GET | POST.

(** What [settings] answers with: [redirect(url_for('index'))], or the
    column names [settings.html] is rendered from. *)
Inductive settings_result : Type :=
  | RedirectIndex
  | RenderSettings (columns : list string).

(** [GET, POST /settings]; [form_column] is
    [request.form.getlist('column')]. *)
Definition settings_route (today : date) (now : timestamp)
    (method : http_method) (form_column : list string) (s : db)
    : settings_result * db :=
  let s := check_rollover_and_archive today now s in
  match method with
  | POST =>
      let cols :=
        take 5
          (strip_text
             <$> List.filter
                   (fun c => negb (String.eqb (strip_text c) "")) form_column) in
      (RedirectIndex, Setting_set "columns" (join "," cols) s)
  | GET =>
      let cols_raw := default "" (Setting_get "columns" s) in
      (RenderSettings (pad_empty (split_on ","%char cols_raw)), s)
  end.

(** Every request of the application: the operations above and the
    settings page. *)
Inductive any_request : Type :=
  | Req (op : operation)
  | ReqSettings (method : http_method) (form_column : list string).

Definition serve (today : date) (now : timestamp) (r : any_request) (s : db)
    : db :=
  match r with
  | Req op => run today now op s
  | ReqSettings method form_column =>
      (settings_route today now method form_column s).2
  end.

(** The names [index] shows for a list of configured names. *)
Definition placeholders (n : nat) : list string :=
  (fun k : nat => "Column " +:+ pretty (k + 1)%nat) <$> seq n (5 - n).

Definition DEFAULT_COLS : list string :=
  ["Backlog"; "To Do"; "In Progress"; "Review"; "Done"].

Definition no_comma (c : string) : Prop :=
  ","%char ∉ list_ascii_of_string c.

(** [{"id": 2}] *)
Definition delete_2 : request :=
  json_request {| p_id := Val 2; p_title := Absent; p_description := Absent;
                  p_column_index := Absent |}.

(** * Properties *)

(** ** Sample evaluations of the calendar *)

Example jan05_text : isoformat jan05 = "2024-01-05".
Proof. reflexivity. Qed.

Example jan10_text : isoformat jan10 = "2024-01-10".
Proof. reflexivity. Qed.

Example jan11_text : isoformat jan11 = "2024-01-11".
Proof. reflexivity. Qed.

Example jan12_text : isoformat jan12 = "2024-01-12".
Proof. reflexivity. Qed.

Example jan13_text : isoformat jan13 = "2024-01-13".
Proof. reflexivity. Qed.

Example feb01_text : isoformat feb01 = "2024-02-01".
Proof. reflexivity. Qed.

Example dec30_text : isoformat dec30 = "2024-12-30".
Proof. reflexivity. Qed.

Example fromisoformat_jan10 : fromisoformat "2024-01-10" = Some jan10.
Proof. reflexivity. Qed.

Example fromisoformat_not_a_date : fromisoformat "not-a-date" = None.
Proof. reflexivity. Qed.

Example fromisoformat_feb_29_2023 : fromisoformat "2023-02-29" = None.
Proof. reflexivity. Qed.

Example fromisoformat_feb_29_2024 :
  option_map isoformat (fromisoformat "2024-02-29") = Some "2024-02-29".
Proof. reflexivity. Qed.

(** Monday 2024-12-30 belongs to ISO week 1 of 2025; Sunday 2021-01-03
    to ISO week 53 of 2020. *)
Example isocalendar_dec30 : isocalendar dec30 = (2025, 1, 1).
Proof. reflexivity. Qed.

Example isocalendar_2021_01_03 :
  option_map isocalendar (fromisoformat "2021-01-03") = Some (2020, 53, 7).
Proof. reflexivity. Qed.

Example fromisoformat_basic_format : fromisoformat "20240110" = Some jan10.
Proof. reflexivity. Qed.

Example fromisoformat_week_format : fromisoformat "2024-W02-3" = Some jan10.
Proof. reflexivity. Qed.

Example fromisoformat_basic_week_format :
  fromisoformat "2024W023" = Some jan10.
Proof. reflexivity. Qed.

(** A week without a day is its Monday; 2020 has a week 53, 2024 has none. *)
Example fromisoformat_week_only :
  option_map isoformat (fromisoformat "2024-W02") = Some "2024-01-08".
Proof. reflexivity. Qed.

Example fromisoformat_week_53 :
  option_map isoformat (fromisoformat "2020-W53-7") = Some "2021-01-03"
  /\ fromisoformat "2024-W53-1" = None.
Proof. split; reflexivity. Qed.

(** In ten bytes without separators the last two are not looked at. *)
Example fromisoformat_ten_bytes : fromisoformat "2024011099" = Some jan10.
Proof. reflexivity. Qed.

Example fromisoformat_mixed_separators :
  fromisoformat "2024-0110" = None /\ fromisoformat "2024W02-3" = None
  /\ fromisoformat "2024-1-10" = None.
Proof. repeat split; reflexivity. Qed.

(** ** Sample evaluations of the text functions *)

Example int_of_text_plain :
  int_of_text "2025" = Some 2025 /\ int_of_text " -7 " = Some (-7)
  /\ int_of_text "+1_000" = Some 1000 /\ int_of_text "1__0" = None
  /\ int_of_text "abc" = None /\ int_of_text "" = None
  /\ int_of_text "1.0" = None.
Proof. repeat split; reflexivity. Qed.

(** The separators 28 to 31 are white space for [str.strip()], not for
    [int()]. *)
Example int_of_text_separator :
  int_of_text (text_of_bytes [28; 55]) = None
  /\ strip_text (text_of_bytes [28; 55]) = "7".
Proof. split; reflexivity. Qed.

(** U+00A0, the no-break space, is white space for both. *)
Example int_of_text_no_break_space :
  int_of_text (text_of_bytes [194; 160; 55; 194; 160]) = Some 7
  /\ strip_text (text_of_bytes [194; 160; 55; 194; 160]) = "7".
Proof. split; reflexivity. Qed.

(** The Persian digits of 2021, U+06F2 U+06F0 U+06F2 U+06F1. *)
Example int_of_text_persian_digits :
  int_of_text (text_of_bytes [219; 178; 219; 176; 219; 178; 219; 177])
  = Some 2021.
Proof. reflexivity. Qed.

Example int_of_text_digit_limit :
  int_of_text (string_of_list_ascii (replicate 4300 "1"%char)) <> None
  /\ int_of_text (string_of_list_ascii (replicate 4301 "1"%char)) = None.
Proof. split; [vm_compute; discriminate | vm_compute; reflexivity]. Qed.

Example py_int_values :
  py_int (Some (PFloat (FFinite 5 (-1)))) = inl 2
  /\ py_int (Some (PFloat (FFinite (-5) (-1)))) = inl (-2)
  /\ py_int (Some (PFloat FInf)) = inr OverflowError
  /\ py_int (Some (PFloat FNaN)) = inr ValueError
  /\ py_int (Some (PBool true)) = inl 1
  /\ py_int (Some PCollection) = inr TypeError.
Proof. repeat split; reflexivity. Qed.

(** ** Sample evaluations of the handlers *)

(** A number that SQLite cannot take: as an id it makes the lookup raise,
    as a column index the commit; nothing is written after the rollover. *)
Example move_task_id_overflow :
  move_task jan10 7 move_2_63_to_3 jan10_db
  = (Raise OverflowError, check_rollover_and_archive jan10 7 jan10_db).
Proof. reflexivity. Qed.

Example move_task_column_overflow :
  move_task jan10 7 move_1_to_2_63 jan10_db
  = (Raise OverflowError, check_rollover_and_archive jan10 7 jan10_db).
Proof. reflexivity. Qed.

Example add_task_column_overflow :
  add_task jan10 7 add_col_2_63 jan10_db
  = (Raise OverflowError, check_rollover_and_archive jan10 7 jan10_db).
Proof. reflexivity. Qed.

(** A watermark in the basic format is read, and the rollover archives
    from it. *)
Example rollover_basic_format :
  watermark basic_format_db = Some jan10
  /\ tasks (check_rollover_and_archive jan13 7 basic_format_db) !! 1
     = Some (set_archived 7 task_T1).
Proof. split; reflexivity. Qed.

(** ** Tactics *)

(** Unfold the sample dates, for [lia]. *)
Ltac dates := cbv [jan05 jan10 jan11 jan12 jan13 feb01 dec30] in *.

(** Settle a comparison that [lia] can decide. *)
Ltac leb_true a b :=
  replace (a <=? b) with true by (symmetry; apply Z.leb_le; lia).
Ltac ltb_true a b :=
  replace (a <? b) with true by (symmetry; apply Z.ltb_lt; lia).

(** ** The calendar: [isoformat] and [fromisoformat] are inverse *)

Section CalendarFacts.

Implicit Types (d n y m dd : Z).

Lemma char_digit_digit_char d :
  0 <= d <= 9 -> char_digit (digit_char d) = Some d.
Proof.
  intros Hd.
  assert (Hc : d = 0 \/ d = 1 \/ d = 2 \/ d = 3 \/ d = 4 \/ d = 5 \/ d = 6
               \/ d = 7 \/ d = 8 \/ d = 9) by lia.
  repeat (destruct Hc as [-> | Hc]; [reflexivity |]). subst d. reflexivity.
Qed.

Lemma digits2_pad n :
  0 <= n <= 99 ->
  digits2 (digit_char (n / 10)) (digit_char (n mod 10)) = Some n.
Proof.
  intros Hn. unfold digits2.
  rewrite !char_digit_digit_char by (Z.div_mod_to_equations; lia).
  f_equal. Z.div_mod_to_equations; lia.
Qed.

Lemma digits4_pad n :
  0 <= n <= 9999 ->
  digits4 (digit_char (n / 1000)) (digit_char ((n / 100) mod 10))
          (digit_char ((n / 10) mod 10)) (digit_char (n mod 10)) = Some n.
Proof.
  intros Hn. unfold digits4, digits2.
  rewrite !char_digit_digit_char by (Z.div_mod_to_equations; lia).
  f_equal. Z.div_mod_to_equations; lia.
Qed.

Lemma month_day_chk_all leap :
  forallb (fun k => month_day_chk leap (Z.of_nat k)) (seq 0 365) = true.
Proof. destruct leap; vm_compute; reflexivity. Qed.

Lemma month_day_ok leap n m dd :
  0 <= n < 365 -> month_day leap n = (m, dd) ->
  1 <= m <= 12 /\ 1 <= dd <= days_in_month_l leap m
  /\ days_before_month_l leap m + dd = n + 1.
Proof.
  intros Hn Hmd.
  pose proof (month_day_chk_all leap) as Hall.
  rewrite forallb_forall in Hall.
  specialize (Hall (Z.to_nat n)).
  rewrite Z2Nat.id in Hall by lia.
  unfold month_day_chk in Hall. rewrite Hmd in Hall.
  assert (Hin : In (Z.to_nat n) (seq 0 365)) by (apply in_seq; lia).
  specialize (Hall Hin).
  repeat (apply andb_prop in Hall; destruct Hall as [Hall ?]).
  lia.
Qed.

Lemma days_before_year_decomp a b c e :
  0 <= b < 4 -> 0 <= c < 25 -> 0 <= e < 4 ->
  days_before_year (400 * a + 100 * b + 4 * c + e + 1)
  = 146097 * a + 36524 * b + 1461 * c + 365 * e.
Proof.
  intros Hb Hc He. unfold days_before_year.
  replace (400 * a + 100 * b + 4 * c + e + 1 - 1)
    with (400 * a + 100 * b + 4 * c + e) by lia.
  cbv zeta.
  assert (H4 : (400 * a + 100 * b + 4 * c + e) / 4 = 100 * a + 25 * b + c).
  { symmetry. apply (Z.div_unique _ 4 _ e); lia. }
  assert (H100 : (400 * a + 100 * b + 4 * c + e) / 100 = 4 * a + b).
  { symmetry. apply (Z.div_unique _ 100 _ (4 * c + e)); lia. }
  assert (H400 : (400 * a + 100 * b + 4 * c + e) / 400 = a).
  { symmetry. apply (Z.div_unique _ 400 _ (100 * b + 4 * c + e)); lia. }
  rewrite H4, H100, H400. lia.
Qed.

Lemma is_leap_decomp a b c e :
  0 <= b < 4 -> 0 <= c < 25 -> 0 <= e < 4 ->
  is_leap (400 * a + 100 * b + 4 * c + e + 1)
  = (e =? 3) && (negb (c =? 24) || (b =? 3)).
Proof.
  intros Hb Hc He. unfold is_leap.
  set (y := 400 * a + 100 * b + 4 * c + e + 1).
  assert (H4 : y mod 4 = (e + 1) mod 4).
  { unfold y. replace (400 * a + 100 * b + 4 * c + e + 1)
      with (e + 1 + (100 * a + 25 * b + c) * 4) by lia.
    apply Z.mod_add. lia. }
  assert (H100 : y mod 100 = (4 * c + e + 1) mod 100).
  { unfold y. replace (400 * a + 100 * b + 4 * c + e + 1)
      with (4 * c + e + 1 + (4 * a + b) * 100) by lia.
    apply Z.mod_add. lia. }
  assert (H400 : y mod 400 = (100 * b + 4 * c + e + 1) mod 400).
  { unfold y. replace (400 * a + 100 * b + 4 * c + e + 1)
      with (100 * b + 4 * c + e + 1 + a * 400) by lia.
    apply Z.mod_add. lia. }
  rewrite H4, H100, H400. clear H4 H100 H400 y.
  destruct (Z.eqb_spec e 3) as [-> | Hne].
  - destruct (Z.eqb_spec c 24) as [-> | Hc24].
    + destruct (Z.eqb_spec b 3) as [-> | Hb3]; [reflexivity |].
      assert (Hb' : b = 0 \/ b = 1 \/ b = 2) by lia.
      destruct Hb' as [-> | [-> | ->]]; reflexivity.
    + simpl. replace ((3 + 1) mod 4) with 0 by reflexivity. simpl.
      destruct (Z.eqb_spec ((4 * c + 3 + 1) mod 100) 0) as [E | E];
        [| reflexivity].
      exfalso. rewrite Z.mod_small in E by lia. lia.
  - simpl. destruct (Z.eqb_spec ((e + 1) mod 4) 0) as [E | E];
      [| reflexivity].
    exfalso. rewrite Z.mod_small in E by lia. lia.
Qed.

(** [_ord2ymd] inverts [_ymd2ord] on the ordinals of [date.min .. date.max],
    and what it returns is accepted by the [date] constructor. *)
Lemma ord2ymd_spec n y m dd :
  valid_date n = true -> ord2ymd n = (y, m, dd) ->
  1 <= y <= 9999 /\ 1 <= m <= 12 /\ 1 <= dd <= days_in_month y m
  /\ ymd2ord y m dd = n.
Proof.
  unfold valid_date, MAXORDINAL. intros Hv Ho.
  apply andb_prop in Hv. destruct Hv as [Hlo Hhi].
  apply Z.leb_le in Hlo. apply Z.leb_le in Hhi.
  unfold ord2ymd, DI400Y, DI100Y, DI4Y in Ho. cbv zeta in Ho.
  pose proof (Z.div_mod (n - 1) 146097 ltac:(lia)) as E1.
  pose proof (Z.mod_pos_bound (n - 1) 146097 ltac:(lia)) as B1.
  set (a := (n - 1) / 146097) in *.
  set (r1 := (n - 1) mod 146097) in *.
  pose proof (Z.div_mod r1 36524 ltac:(lia)) as E2.
  pose proof (Z.mod_pos_bound r1 36524 ltac:(lia)) as B2.
  set (b := r1 / 36524) in *.
  set (r2 := r1 mod 36524) in *.
  pose proof (Z.div_mod r2 1461 ltac:(lia)) as E3.
  pose proof (Z.mod_pos_bound r2 1461 ltac:(lia)) as B3.
  set (c := r2 / 1461) in *.
  set (r3 := r2 mod 1461) in *.
  pose proof (Z.div_mod r3 365 ltac:(lia)) as E4.
  pose proof (Z.mod_pos_bound r3 365 ltac:(lia)) as B4.
  set (e := r3 / 365) in *.
  set (r4 := r3 mod 365) in *.
  clearbody a r1 b r2 c r3 e r4.
  assert (Ha : 0 <= a <= 24) by lia.
  assert (Hb : 0 <= b <= 4) by lia.
  assert (Hc : 0 <= c <= 24) by lia.
  assert (He : 0 <= e <= 4) by lia.
  destruct (Z.eqb_spec e 4) as [He4 | He4].
  - (* last day of a leap year, the fourth year of a 4-year cycle *)
    simpl in Ho. injection Ho as <- <- <-.
    assert (Hb' : b < 4) by lia.
    assert (Hc' : c < 24) by lia.
    replace (a * 400 + 1 + b * 100 + c * 4 + e - 1)
      with (400 * a + 100 * b + 4 * c + 3 + 1) by lia.
    unfold ymd2ord, days_in_month, days_before_month.
    rewrite is_leap_decomp, days_before_year_decomp by lia.
    replace (c =? 24) with false by (symmetry; apply Z.eqb_neq; lia).
    unfold days_in_month_l, days_before_month_l, b2z. simpl. lia.
  - destruct (Z.eqb_spec b 4) as [Hb4 | Hb4].
    + (* last day of a 400-year cycle *)
      simpl in Ho. injection Ho as <- <- <-.
      assert (c = 0 /\ e = 0) as [-> ->] by lia.
      replace (a * 400 + 1 + b * 100 + 0 * 4 + 0 - 1)
        with (400 * a + 100 * 3 + 4 * 24 + 3 + 1) by lia.
      unfold ymd2ord, days_in_month, days_before_month.
      rewrite is_leap_decomp, days_before_year_decomp by lia.
      unfold days_in_month_l, days_before_month_l, b2z. simpl. lia.
    + simpl in Ho.
      destruct (month_day _ r4) as [m' d'] eqn:Hmd.
      injection Ho as <- <- <-.
      apply month_day_ok in Hmd; [| lia].
      replace (a * 400 + 1 + b * 100 + c * 4 + e)
        with (400 * a + 100 * b + 4 * c + e + 1) by lia.
      unfold ymd2ord, days_in_month, days_before_month.
      rewrite is_leap_decomp, days_before_year_decomp by lia.
      lia.
Qed.

Lemma digit_char_not_W d :
  0 <= d <= 9 -> Ascii.eqb (digit_char d) "W"%char = false.
Proof.
  intros Hd. pose proof (char_digit_digit_char d Hd) as Hc.
  destruct (Ascii.eqb_spec (digit_char d) "W"%char) as [E | _]; [| done].
  rewrite E in Hc. discriminate.
Qed.

Lemma fromisoformat_isoformat d :
  valid_date d = true -> fromisoformat (isoformat d) = Some d.
Proof.
  intros Hv. unfold isoformat.
  destruct (ord2ymd d) as [[y m] dd] eqn:Ho.
  destruct (ord2ymd_spec _ _ _ _ Hv Ho) as (Hy & Hm & Hd & Hord).
  assert (Hd31 : dd <= 31).
  { unfold days_in_month, days_in_month_l in Hd.
    assert (Hc : m = 1 \/ m = 2 \/ m = 3 \/ m = 4 \/ m = 5 \/ m = 6 \/ m = 7
                 \/ m = 8 \/ m = 9 \/ m = 10 \/ m = 11 \/ m = 12) by lia.
    repeat (destruct Hc as [-> | Hc];
            [destruct (is_leap y); simpl in Hd; lia |]).
    subst m. destruct (is_leap y); simpl in Hd; lia. }
  unfold fromisoformat, pad4, pad2.
  cbv [String.append list_ascii_of_string].
  cbn [length Nat.eqb orb].
  unfold parse_isoformat_date.
  rewrite digits4_pad by lia.
  cbn [next_is tl Ascii.eqb Bool.eqb andb negb].
  rewrite digit_char_not_W by (Z.div_mod_to_equations; lia).
  rewrite !digits2_pad by lia.
  unfold mkdate, MINYEAR, MAXYEAR.
  leb_true 1 y. leb_true y 9999. leb_true 1 m. leb_true m 12.
  leb_true 1 dd. leb_true dd (days_in_month y m).
  simpl. now rewrite Hord.
Qed.

End CalendarFacts.

(** ** The rollover loop *)

Section Rollover.

Variables (today : date) (now : timestamp).

(** The loop archives the open tasks of the days it walks through. *)
Lemma archive_days_spec day tbl :
  archive_days today now day tbl = archive_range day today now <$> tbl.
Proof.
  funelim (archive_days today now day tbl).
  - match goal with
    | IH : archive_days _ _ _ _ = archive_range _ _ _ <$> _ |- _ => rewrite IH
    end.
    unfold archive_tasks_of. rewrite <- map_fmap_compose.
    apply map_fmap_ext. intros i t _. unfold archive_range, compose.
    destruct (Z.eqb_spec (task_date t) day) as [-> | Hne].
    + destruct (archived t) eqn:Ha; simpl.
      * rewrite Ha, !andb_false_r. reflexivity.
      * rewrite !andb_false_r.
        leb_true day day. ltb_true day today.
        reflexivity.
    + simpl.
      replace (day + 1 <=? task_date t) with (day <=? task_date t); [done |].
      destruct (Z.leb_spec day (task_date t)), (Z.leb_spec (day + 1) (task_date t));
        (reflexivity || lia).
  - rewrite <- (map_fmap_id tbl) at 1.
    apply map_fmap_ext. intros i t _. unfold archive_range.
    replace ((day <=? task_date t) && (task_date t <? today)) with false; [done |].
    destruct (Z.leb_spec day (task_date t)), (Z.ltb_spec (task_date t) today);
      (reflexivity || lia).
Qed.

Lemma watermark_Some s W :
  watermark s = Some W ->
  exists last, Setting_get LAST_ACTIVE s = Some last
               /\ String.eqb last "" = false /\ fromisoformat last = Some W.
Proof.
  unfold watermark. destruct (Setting_get LAST_ACTIVE s) as [last |]; [| done].
  simpl. intros H. exists last. split; [done |]. split; [| done].
  destruct (String.eqb_spec last "") as [-> | ?]; [discriminate | done].
Qed.

Lemma watermark_Setting_set s :
  valid_date today = true ->
  watermark (Setting_set LAST_ACTIVE (isoformat today) s) = Some today.
Proof.
  intros Hv. unfold watermark, Setting_set, Setting_get. simpl.
  rewrite lookup_insert_eq. simpl. by apply fromisoformat_isoformat.
Qed.

(** A rollover with a readable watermark [W]. *)
Lemma rollover_from s W :
  watermark s = Some W ->
  check_rollover_and_archive today now s =
    if today <=? W then s
    else Setting_set LAST_ACTIVE (isoformat today)
           {| settings := settings s;
              tasks := archive_range W today now <$> tasks s |}.
Proof.
  intros HW. destruct (watermark_Some _ _ HW) as (last & Hg & Hne & Hp).
  unfold check_rollover_and_archive. rewrite Hg, Hne, Hp.
  destruct (today <=? W); [done |]. by rewrite archive_days_spec.
Qed.

(** A rollover without a readable watermark. *)
Lemma rollover_reset s :
  watermark s = None ->
  check_rollover_and_archive today now s
  = Setting_set LAST_ACTIVE (isoformat today) s.
Proof.
  unfold watermark, check_rollover_and_archive.
  destruct (Setting_get LAST_ACTIVE s) as [last |]; [| done].
  simpl. intros ->. by destruct (String.eqb last "").
Qed.

Lemma rollover_tasks s W :
  watermark s = Some W ->
  tasks (check_rollover_and_archive today now s)
  = archive_range W today now <$> tasks s.
Proof.
  intros HW. rewrite (rollover_from _ _ HW).
  destruct (Z.leb_spec today W); [| done].
  rewrite <- (map_fmap_id (tasks s)) at 1.
  apply map_fmap_ext. intros i t _. unfold archive_range.
  replace ((W <=? task_date t) && (task_date t <? today)) with false; [done |].
  destruct (Z.leb_spec W (task_date t)), (Z.ltb_spec (task_date t) today);
    (reflexivity || lia).
Qed.

Lemma rollover_watermark s W :
  watermark s = Some W -> valid_date today = true ->
  watermark (check_rollover_and_archive today now s) = Some (Z.max W today).
Proof.
  intros HW Hv. rewrite (rollover_from _ _ HW).
  destruct (Z.leb_spec today W).
  - rewrite HW. f_equal. lia.
  - rewrite watermark_Setting_set by done. f_equal. lia.
Qed.

(** After [init_db] there is a watermark to read. *)
Lemma init_db_watermark s :
  exists last, Setting_get LAST_ACTIVE (init_db today s) = Some last
               /\ last <> "".
Proof.
  unfold init_db. cbv zeta.
  set (s1 := match Setting_get "columns" s with
             | Some cols => _ | None => _ end).
  assert (Hiso : isoformat today <> "").
  { unfold isoformat, pad4. destruct (ord2ymd today) as [[y m] dd].
    cbv [String.append]. discriminate. }
  destruct (Setting_get LAST_ACTIVE s1) as [last |] eqn:Hl.
  - destruct (String.eqb_spec last "") as [-> | Hne].
    + exists (isoformat today). split; [| done].
      unfold Setting_get, Setting_set. simpl. apply lookup_insert_eq.
    + exists last. done.
  - exists (isoformat today). split; [| done].
    unfold Setting_get, Setting_set. simpl. apply lookup_insert_eq.
Qed.

End Rollover.

(** ** Claims about the rollover *)

(** C1.  With a stored watermark [W] and a clock reading [today] such that
    [W <= today], one call of [check_rollover_and_archive] archives exactly
    the tasks that were not archived and are dated in the half-open range
    from [W] to [today]: on each of them [archived] becomes true and
    [archived_at] is set.  Every other task (dated [today] or later, dated
    before [W], or archived already) stays as it was, no task appears or
    disappears, and afterwards the watermark is [today]. *)
Theorem catch_up_archives_range today now s W :
  watermark s = Some W -> W <= today -> valid_date today = true ->
  let s' := check_rollover_and_archive today now s in
  (forall i t, tasks s !! i = Some t ->
     archived t = false -> W <= task_date t < today ->
     tasks s' !! i = Some (set_archived now t)
     /\ archived (set_archived now t) = true
     /\ archived_at (set_archived now t) = Some now)
  /\ (forall i t, tasks s !! i = Some t ->
        ~ (archived t = false /\ W <= task_date t < today) ->
        tasks s' !! i = Some t)
  /\ (forall i, tasks s !! i = None -> tasks s' !! i = None)
  /\ watermark s' = Some today.
Proof.
  intros HW Hle Hv s'. subst s'.
  rewrite (rollover_tasks _ _ _ _ HW), (rollover_watermark _ _ _ _ HW Hv).
  split; [| split; [| split]].
  - intros i t Hl Ha Hd. split; [| done].
    rewrite lookup_fmap, Hl. simpl. unfold archive_range.
    leb_true W (task_date t). ltb_true (task_date t) today.
    by rewrite Ha.
  - intros i t Hl Hn. rewrite lookup_fmap, Hl. simpl. unfold archive_range.
    destruct (Z.leb_spec W (task_date t)), (Z.ltb_spec (task_date t) today),
      (archived t) eqn:Ha; simpl; try done.
    exfalso. apply Hn. split; [done | lia].
  - intros i Hl. by rewrite lookup_fmap, Hl.
  - f_equal. lia.
Qed.

Lemma catch_up_archives_range_witness :
  tasks (check_rollover_and_archive jan13 7 jan10_db) !! 1
  = Some (set_archived 7 task_T1)
  /\ watermark (check_rollover_and_archive jan13 7 jan10_db) = Some jan13.
Proof.
  destruct (catch_up_archives_range jan13 7 jan10_db jan10)
    as (Ha & _ & _ & Hw); [reflexivity | dates; lia | reflexivity |].
  split; [| exact Hw].
  apply (Ha 1 task_T1); [reflexivity | reflexivity | simpl; dates; lia].
Defined.

(** C6.  When the stored watermark is missing or does not read as a date,
    [check_rollover_and_archive] stores the clock reading as the new
    watermark, changes no task and no other setting; it is a total
    function, so nothing is raised. *)
Theorem catch_up_heals_watermark today now s :
  match Setting_get LAST_ACTIVE s with
  | None => True
  | Some last => fromisoformat last = None
  end ->
  valid_date today = true ->
  let s' := check_rollover_and_archive today now s in
  Setting_get LAST_ACTIVE s' = Some (isoformat today)
  /\ watermark s' = Some today
  /\ tasks s' = tasks s
  /\ (forall k, k <> LAST_ACTIVE -> Setting_get k s' = Setting_get k s).
Proof.
  intros Hlast Hv s'. subst s'.
  assert (HW : watermark s = None).
  { unfold watermark. by destruct (Setting_get LAST_ACTIVE s). }
  rewrite (rollover_reset _ _ _ HW).
  split; [| split; [| split]].
  - unfold Setting_get, Setting_set. simpl. apply lookup_insert_eq.
  - by apply watermark_Setting_set.
  - reflexivity.
  - intros k Hk. unfold Setting_get, Setting_set. simpl.
    by rewrite lookup_insert_ne.
Qed.

Lemma catch_up_heals_watermark_witness :
  watermark (check_rollover_and_archive feb01 7 corrupt_db) = Some feb01
  /\ tasks (check_rollover_and_archive feb01 7 corrupt_db) = tasks corrupt_db.
Proof.
  destruct (catch_up_heals_watermark feb01 7 corrupt_db)
    as (_ & Hw & Ht & _); [reflexivity | reflexivity |].
  split; [exact Hw | exact Ht].
Defined.

(** ** Runs of rollovers *)

Section Batching.

Implicit Types (s : db) (W : date) (p : date * bool).

Lemma elem_of_archived_ids s i :
  i ∈ archived_ids s <-> exists t, tasks s !! i = Some t /\ archived t = true.
Proof.
  unfold archived_ids. rewrite elem_of_dom. unfold is_Some.
  split.
  - intros [t Ht]. apply map_lookup_filter_Some in Ht as [Ht Ha]. eauto.
  - intros (t & Ht & Ha). exists t. by apply map_lookup_filter_Some.
Qed.

Lemma elem_of_archived_ids_flags s i :
  i ∈ archived_ids s <-> exists d, flags s !! i = Some (d, true).
Proof.
  rewrite elem_of_archived_ids. unfold flags. rewrite lookup_fmap.
  destruct (tasks s !! i) as [t |]; simpl.
  - split.
    + intros (t' & [= <-] & Ha). exists (task_date t). by rewrite Ha.
    + intros (d & [= <- Ha]). eauto.
  - split; [intros (? & ? & _) | intros (? & ?)]; done.
Qed.

Lemma flags_rollover today now s W :
  watermark s = Some W ->
  flags (check_rollover_and_archive today now s) = arch W today <$> flags s.
Proof.
  intros HW. unfold flags. rewrite (rollover_tasks _ _ _ _ HW).
  rewrite <- !map_fmap_compose. apply map_fmap_ext. intros i t _.
  unfold compose, arch, archive_range. simpl.
  destruct ((W <=? task_date t) && (task_date t <? today)),
    (archived t) eqn:Ha; simpl; rewrite ?Ha; reflexivity.
Qed.

Lemma arch_arch W h1 h2 p :
  arch (Z.max W h1) h2 (arch W h1 p) = arch W (Z.max h1 h2) p.
Proof.
  unfold arch. destruct p as [d a]. simpl. f_equal.
  destruct a; [reflexivity |]. simpl.
  destruct (Z.leb_spec W d), (Z.ltb_spec d h1), (Z.leb_spec (Z.max W h1) d),
    (Z.ltb_spec d h2), (Z.ltb_spec d (Z.max h1 h2)); simpl;
    (reflexivity || lia).
Qed.

Lemma arch_max W h p : arch W (Z.max W h) p = arch W h p.
Proof.
  unfold arch. destruct p as [d a]. simpl. f_equal. f_equal.
  destruct (Z.leb_spec W d), (Z.ltb_spec d h), (Z.ltb_spec d (Z.max W h));
    simpl; (reflexivity || lia).
Qed.

(** A run of rollovers archives up to the latest clock reading. *)
Lemma catch_up_all_flags clock : forall s W,
  watermark s = Some W ->
  Forall (fun c => valid_date c.1 = true) clock ->
  flags (catch_up_all clock s) = arch W (foldl Z.max W clock.*1) <$> flags s
  /\ watermark (catch_up_all clock s) = Some (foldl Z.max W clock.*1).
Proof.
  induction clock as [| c clock IH]; intros s W HW Hv.
  - simpl. split; [| done].
    rewrite <- (map_fmap_id (flags s)) at 1. apply map_fmap_ext.
    intros i [d a] _. unfold arch. simpl. f_equal.
    destruct a; [done |]. simpl.
    destruct (Z.leb_spec W d), (Z.ltb_spec d W); simpl; (reflexivity || lia).
  - inversion Hv as [| ? ? Hc Hv']. subst.
    pose proof (rollover_watermark c.1 c.2 s W HW Hc) as HW'.
    destruct (IH _ _ HW' Hv') as [IHf IHw].
    change (catch_up_all (c :: clock) s)
      with (catch_up_all clock (check_rollover_and_archive c.1 c.2 s)).
    cbn [fmap list_fmap foldl]. split; [| done].
    rewrite IHf, (flags_rollover _ _ _ _ HW), <- map_fmap_compose.
    apply map_fmap_ext. intros i p _. unfold compose.
    set (W' := Z.max W c.1).
    assert (Hfold : forall l a, a <= foldl Z.max a l).
    { induction l as [| x l IHl]; intros a; simpl; [lia |].
      specialize (IHl (Z.max a x)). lia. }
    specialize (Hfold clock.*1 W').
    assert (Hmax : foldl Z.max W' clock.*1
                   = Z.max c.1 (foldl Z.max W' clock.*1)) by lia.
    subst W'. rewrite arch_arch. by rewrite <- Hmax.
Qed.

Lemma foldl_max_sorted l : forall a c,
  Sorted Z.le (l ++ [c]) -> foldl Z.max a (l ++ [c]) = Z.max a c.
Proof.
  induction l as [| x l IH]; intros a c Hs; [done |].
  simpl. simpl in Hs.
  assert (Hxc : x <= c).
  { apply Sorted_StronglySorted in Hs; [| intros ? ? ? ? ?; lia].
    inversion Hs as [| ? ? _ Hall]. subst.
    rewrite Forall_app in Hall. destruct Hall as [_ Hc].
    by inversion Hc. }
  rewrite IH by (by inversion Hs). lia.
Qed.

End Batching.

(** C2, amended.  When the stored watermark reads as a date at the start,
    a run of [check_rollover_and_archive] calls whose clock readings do not
    decrease leaves the same set of archived tasks as one call with the
    last reading. *)
Theorem catch_up_batching s W clock c :
  watermark s = Some W ->
  Forall (fun c => valid_date c.1 = true) (clock ++ [c]) ->
  Sorted Z.le (clock ++ [c]).*1 ->
  archived_ids (catch_up_all (clock ++ [c]) s)
  = archived_ids (check_rollover_and_archive c.1 c.2 s).
Proof.
  intros HW Hv Hs.
  destruct (catch_up_all_flags (clock ++ [c]) s W HW Hv) as [Hf _].
  rewrite fmap_app in Hf, Hs. simpl in Hf, Hs.
  rewrite (foldl_max_sorted _ _ _ Hs) in Hf.
  apply set_eq. intros i. rewrite !elem_of_archived_ids_flags.
  rewrite Hf, (flags_rollover _ _ _ _ HW), !lookup_fmap.
  destruct (flags s !! i) as [p |]; simpl; [| done].
  by rewrite arch_max.
Qed.

Lemma catch_up_batching_witness :
  archived_ids (catch_up_all [(jan11, 5); (jan13, 7)] jan10_db)
  = archived_ids (check_rollover_and_archive jan13 7 jan10_db).
Proof.
  apply (catch_up_batching jan10_db jan10 [(jan11, 5)] (jan13, 7)).
  - reflexivity.
  - repeat constructor.
  - repeat constructor. simpl. (dates; lia).
Defined.

(** C2 as stated fails on a database whose watermark is unreadable: the
    first of two calls only repairs the watermark, the second archives
    from there on, while a single call with the last clock reading
    archives nothing. *)
Lemma catch_up_batching_counterexample :
  Sorted Z.le [(jan10, 5); (jan12, 7)].*1
  /\ archived_ids (catch_up_all [(jan10, 5); (jan12, 7)] corrupt_db)
     <> archived_ids (check_rollover_and_archive jan12 7 corrupt_db).
Proof.
  split; [repeat constructor; simpl; (dates; lia) |].
  intros Heq.
  assert (Hin : 1 ∈ archived_ids (catch_up_all [(jan10, 5); (jan12, 7)] corrupt_db)).
  { apply elem_of_archived_ids. eexists. split; [reflexivity | reflexivity]. }
  rewrite Heq in Hin. apply elem_of_archived_ids in Hin.
  destruct Hin as (t & Ht & Ha).
  vm_compute in Ht. injection Ht as <-. discriminate Ha.
Qed.

(** ** The watermark invariant *)

Section Invariant.

Variables (today : date) (now : timestamp).

(** Every request starts with the rollover; what it does afterwards keeps
    the watermark, and keeps date and archived flag of the rows it keeps;
    a row it adds is of today. *)
Lemma run_after_rollover op s :
  let s1 := check_rollover_and_archive today now s in
  let s' := run today now op s in
  settings s' = settings s1
  /\ forall i t', tasks s' !! i = Some t' ->
       (exists t, tasks s1 !! i = Some t /\ task_date t' = task_date t
                  /\ archived t' = archived t)
       \/ task_date t' = today.
Proof.
  intros s1 s'. subst s1 s'. unfold run.
  destruct op; unfold index, add_task, move_task, edit_task, delete_task,
    archive_index, archive_day, archive_week, archive_month, archive_year,
    query_get;
    cbv zeta; generalize (check_rollover_and_archive today now s); intros s1;
    repeat case_match; simplify_eq/=;
    (split; [reflexivity |]); intros j t' Hj; eauto;
    try (apply lookup_insert_Some in Hj as [[<- <-] | [_ Hj]]);
    try (apply lookup_delete_Some in Hj as [_ Hj]);
    simpl; eauto 6.
Qed.

Lemma rollover_inv_after today0 s :
  rollover_inv today0 s -> today0 <= today -> valid_date today = true ->
  let s1 := check_rollover_and_archive today now s in
  watermark s1 = Some today
  /\ forall i t, tasks s1 !! i = Some t -> task_date t < today ->
                 archived t = true.
Proof.
  intros (W & HW & Hle & Hall) Hle' Hv s1. subst s1.
  rewrite (rollover_watermark _ _ _ _ HW Hv), (rollover_tasks _ _ _ _ HW).
  split; [f_equal; lia |].
  intros i t' Hl Hd. rewrite lookup_fmap in Hl.
  destruct (tasks s !! i) as [t |] eqn:Ht; [| done].
  simpl in Hl. injection Hl as <-. unfold archive_range in *.
  destruct (Z.leb_spec W (task_date t)); simpl in *.
  - destruct (archived t) eqn:Ha; simpl in *.
    + rewrite andb_false_r in *. done.
    + rewrite andb_true_r in *.
      destruct (Z.ltb_spec (task_date t) today); simpl in *; [done | lia].
  - eapply Hall; [done | lia].
Qed.

End Invariant.

(** C5, amended.  If the watermark invariant held at an earlier clock
    reading [today0] and the clock has not gone back, it holds at the new
    reading after every request.  When the clock reads a day before the
    watermark, the rollover changes nothing, and the watermark stays ahead
    of the clock. *)
Theorem rollover_inv_preserved :
  (forall op today0 today now s,
      rollover_inv today0 s -> today0 <= today -> valid_date today = true ->
      rollover_inv today (run today now op s))
  /\ (forall today now s W,
        watermark s = Some W -> today < W ->
        check_rollover_and_archive today now s = s
        /\ ~ rollover_inv today (check_rollover_and_archive today now s)).
Proof.
  split.
  - intros op today0 today now s Hinv Hle Hv.
    destruct (rollover_inv_after _ now _ _ Hinv Hle Hv) as [HW1 Hall1].
    destruct (run_after_rollover today now op s) as [Hset Htasks].
    exists today. split; [| split; [lia |]].
    + unfold watermark, Setting_get in *. by rewrite Hset.
    + intros i t' Hl Hd.
      destruct (Htasks _ _ Hl) as [(t & Ht & Hdate & Harch) | Hnew]; [| lia].
      rewrite Harch. eapply Hall1; [done | lia].
  - intros today now s W HW Hlt.
    rewrite (rollover_from _ _ _ _ HW).
    leb_true today W.
    split; [done |].
    intros (W' & HW' & Hle & _). rewrite HW in HW'. injection HW' as <-. lia.
Qed.

Lemma rollover_inv_preserved_witness :
  rollover_inv jan13
    (run jan13 7
       (OpAddTask
          {| json := Some {| p_id := Absent; p_title := Val "T2";
                             p_description := Absent;
                             p_column_index := Absent |};
             form := {| p_id := Absent; p_title := Absent;
                        p_description := Absent;
                        p_column_index := Absent |} |}) jan10_db)
  /\ check_rollover_and_archive jan05 7 jan10_db = jan10_db.
Proof.
  destruct rollover_inv_preserved as [Hpres Hback]. split.
  - apply (Hpres _ jan10); [| (dates; lia) | reflexivity].
    exists jan10. split; [reflexivity |]. split; [(dates; lia) |].
    intros i t Hl Hd. unfold jan10_db in Hl. simpl in Hl.
    apply lookup_singleton_Some in Hl as [_ <-].
    simpl in Hd. (dates; lia).
  - apply (Hback jan05 7 jan10_db jan10); [reflexivity | (dates; lia)].
Defined.

(** C5 as stated fails: after a rollover with a clock reading before the
    watermark, the watermark is later than today. *)
Lemma rollover_inv_counterexample :
  rollover_inv jan10 jan10_db
  /\ ~ rollover_inv jan05 (run jan05 7 OpCatchUp jan10_db).
Proof.
  split.
  - exists jan10. split; [reflexivity |]. split; [(dates; lia) |].
    intros i t Hl Hd. unfold jan10_db in Hl. simpl in Hl.
    apply lookup_singleton_Some in Hl as [_ <-].
    simpl in Hd. (dates; lia).
  - intros (W & HW & Hle & _). vm_compute in HW. injection HW as <-. (dates; lia).
Qed.

(** ** The task handlers *)

Section Handlers.

Variables (today : date) (now : timestamp) (s : db).

(** What the rollover does to a single row. *)
Lemma rollover_row i :
  match tasks s !! i with
  | None => tasks (check_rollover_and_archive today now s) !! i = None
  | Some t =>
      tasks (check_rollover_and_archive today now s) !! i = Some t
      \/ (tasks (check_rollover_and_archive today now s) !! i
            = Some (set_archived now t)
          /\ task_date t < today /\ archived t = false)
  end.
Proof.
  destruct (watermark s) as [W |] eqn:HW.
  - rewrite (rollover_tasks _ _ _ _ HW), lookup_fmap.
    destruct (tasks s !! i) as [t |]; [| done]. simpl.
    unfold archive_range.
    destruct (Z.leb_spec W (task_date t)), (Z.ltb_spec (task_date t) today),
      (archived t) eqn:Ha; simpl; auto.
  - rewrite (rollover_reset _ _ _ HW). simpl.
    destruct (tasks s !! i); auto.
Qed.

Lemma foldr_max_ge (k : Z) (ks : list Z) x :
  x ∈ k :: ks -> x <= foldr Z.max k ks.
Proof.
  induction ks as [| y ks IH]; intros Hx; simpl.
  - apply list_elem_of_singleton in Hx. lia.
  - apply elem_of_cons in Hx as [-> | Hx].
    + specialize (IH ltac:(left)). lia.
    + apply elem_of_cons in Hx as [-> | Hx]; [lia |].
      specialize (IH ltac:(by right)). lia.
Qed.

Lemma next_id_fresh (tbl : gmap Z Task) : tbl !! next_id tbl = None.
Proof.
  destruct (tbl !! next_id tbl) as [t |] eqn:Hl; [| done]. exfalso.
  apply elem_of_map_to_list in Hl.
  assert (Hin : next_id tbl ∈ (map_to_list tbl).*1).
  { apply list_elem_of_fmap. by exists (next_id tbl, t). }
  revert Hin. unfold next_id.
  destruct ((map_to_list tbl).*1) as [| k ks]; intros Hin;
    [by apply elem_of_nil in Hin |].
  apply foldr_max_ge in Hin. lia.
Qed.

End Handlers.



(** What a successful [add_task] has done: one open task of today is
    inserted under an unused id, and returned. *)
Lemma add_task_inserts today now r s d :
  (add_task today now r s).1 = Return (200, BTask d) ->
  let s1 := check_rollover_and_archive today now s in
  exists t,
    d = to_dict (d_id d) t
    /\ tasks s1 !! d_id d = None
    /\ (add_task today now r s).2
       = {| settings := settings s1; tasks := <[d_id d := t]> (tasks s1) |}
    /\ get (p_title (json_or_form r)) = Some (title t) /\ title t <> ""
    /\ description t = get_default (p_description (json_or_form r)) (Some "")
    /\ py_int (get_default (p_column_index (json_or_form r)) (Some (PInt 0)))
       = inl (column_index t)
    /\ in_int64 (column_index t) = true
    /\ task_date t = today /\ archived t = false /\ archived_at t = None
    /\ created_at t = now.
Proof.
  intros Hret s1. revert Hret. unfold add_task. fold s1. cbv zeta.
  destruct (py_int _) as [c | e]; [| done].
  destruct (get (p_title (json_or_form r))) as [x |]; [| done].
  destruct (String.eqb_spec x "") as [-> | Hx]; [done |].
  destruct (in_int64 c) eqn:Hc; [| done].
  simpl. intros [= <-]. eexists. split; [reflexivity |]. simpl.
  split; [apply next_id_fresh |]. by repeat split.
Qed.

(** C4.  [add_task] does not clamp the column index.  On a board of five
    columns, a task added with column index 7 is stored, and returned, with
    column index 7, where clamping to the columns of the board gives 4 (and
    the source notes the range 0..4 on the column). *)
Theorem add_task_column_not_clamped :
  tasks jan10_board !! 2 = None
  /\ board_columns (add_task jan10 7 add_col_7 jan10_board).2 = DEFAULT_COLS
  /\ N_columns (add_task jan10 7 add_col_7 jan10_board).2 = 5
  /\ clamp 0 (N_columns (add_task jan10 7 add_col_7 jan10_board).2 - 1) 7 = 4
  /\ exists t,
       (add_task jan10 7 add_col_7 jan10_board).1
       = Return (200, BTask (to_dict 2 t))
       /\ tasks (add_task jan10 7 add_col_7 jan10_board).2 !! 2 = Some t
       /\ title t = "x" /\ task_date t = jan10 /\ archived t = false
       /\ column_index t = 7.
Proof.
  split; [reflexivity |]. split; [reflexivity |]. split; [reflexivity |].
  split; [reflexivity |].
  eexists. split; [reflexivity |]. split; [reflexivity |]. by repeat split.
Qed.

(** C8.  Exceptions leave the handlers: [add_task] raises [ValueError] on
    a column index that is not a number (also when the title is empty) and
    [TypeError] on a null one; [move_task] raises [TypeError] without a
    column index and [AttributeError] without a JSON body; [edit_task]
    raises [IntegrityError] on a null title. *)
Theorem exceptions_escape today now s :
  (add_task today now add_col_abc s).1 = Raise ValueError
  /\ (add_task today now add_untitled_col_abc s).1 = Raise ValueError
  /\ (add_task today now add_col_null s).1 = Raise TypeError
  /\ (move_task today now move_no_column s).1 = Raise TypeError
  /\ (move_task today now move_form s).1 = Raise AttributeError
  /\ (edit_task jan10 7 edit_1_null_title jan10_db).1 = Raise IntegrityError.
Proof. repeat split; reflexivity. Qed.

(** [edit_task] stores whatever title it is given for an editable task. *)
Lemma edit_task_stores_title today now r s i t x :
  get (p_id (json_or_form r)) = Some i ->
  tasks (check_rollover_and_archive today now s) !! i = Some t ->
  editable today t = true ->
  p_title (json_or_form r) = Val x ->
  exists t',
    tasks (edit_task today now r s).2 !! i = Some t'
    /\ title t' = x
    /\ (edit_task today now r s).1 = Return (200, BTask (to_dict i t')).
Proof.
  intros Hid Hl He Hx. unfold edit_task, query_get. cbv zeta.
  rewrite Hid, Hl. unfold editable in He. apply negb_true_iff in He.
  rewrite He, Hx. simpl. eexists. rewrite lookup_insert_eq. done.
Qed.

(** C9.  [edit_task] with an empty title succeeds on an editable task and
    leaves it stored with the empty title. *)
Theorem edit_task_empty_title :
  (exists t, tasks jan10_db !! 1 = Some t /\ title t <> "")
  /\ exists d t,
       (edit_task jan10 7 edit_1_untitled jan10_db).1 = Return (200, BTask d)
       /\ d_title d = ""
       /\ tasks (edit_task jan10 7 edit_1_untitled jan10_db).2 !! 1 = Some t
       /\ title t = "".
Proof.
  split.
  - exists task_T1. split; [reflexivity | discriminate].
  - eexists. eexists. repeat split; reflexivity.
Qed.

(** ** The board and the archive views *)

Section Views.

Implicit Types (tbl : gmap Z Task) (i : Z) (t : Task).

Lemma elem_of_rows tbl i t : (i, t) ∈ rows tbl <-> tbl !! i = Some t.
Proof.
  unfold rows. rewrite merge_sort_Permutation. apply elem_of_map_to_list.
Qed.

Lemma elem_of_filter_rows (p : Z * Task -> bool) tbl i t :
  (i, t) ∈ List.filter p (rows tbl) <-> tbl !! i = Some t /\ p (i, t) = true.
Proof. rewrite list_elem_of_In, filter_In, <- list_elem_of_In, elem_of_rows. done. Qed.

Lemma pad_cols_length cols :
  length (pad_cols cols) = Nat.max 5 (length cols).
Proof.
  funelim (pad_cols cols).
  - match goal with
    | IH : length (pad_cols _) = Nat.max _ _ |- _ => rewrite IH
    end.
    rewrite length_app. simpl. lia.
  - lia.
Qed.

Lemma board_columns_length s : length (board_columns s) = 5%nat.
Proof.
  unfold board_columns. cbv zeta. rewrite pad_cols_length.
  case_match eqn:Hlt.
  - apply Nat.ltb_lt in Hlt. rewrite length_take. lia.
  - apply Nat.ltb_ge in Hlt. lia.
Qed.

Lemma empty_cols_lookup n c :
  empty_cols n !! c = if decide (0 <= c < Z.of_nat n) then Some [] else None.
Proof.
  unfold empty_cols. case_decide as Hc.
  - apply elem_of_list_to_map.
    + rewrite <- list_fmap_compose.
      apply (NoDup_fmap_2 (fun i : nat => Z.of_nat i)), NoDup_seq.
    + apply list_elem_of_fmap. exists (Z.to_nat c).
      split; [f_equal; lia |]. apply elem_of_seq. lia.
  - apply not_elem_of_list_to_map. rewrite <- list_fmap_compose.
    intros Hin. apply list_elem_of_fmap in Hin as (k & -> & Hk).
    apply elem_of_seq in Hk. simpl in Hc. lia.
Qed.

(** The tasks under each column after the loop over [tasks]. *)
Lemma foldl_add_to_col l : forall m c x,
  (exists xs, foldl add_to_col m l !! c = Some xs /\ x ∈ xs)
  <-> (exists xs, m !! c = Some xs /\ x ∈ xs)
      \/ (x ∈ l /\ column_index x.2 = c).
Proof.
  induction l as [| y l IH]; intros m c x; simpl.
  - split; [auto |]. intros [H | [H _]]; [done | by apply elem_of_nil in H].
  - rewrite IH. unfold add_to_col at 1.
    split.
    + intros [(xs & Hxs & Hx) | [Hx Hc]].
      * apply lookup_insert_Some in Hxs as [[<- <-] | [Hne Hxs]].
        -- apply elem_of_app in Hx as [Hx | Hx].
           ++ left. destruct (m !! column_index y.2) as [ys |]; simpl in Hx.
              ** eauto.
              ** by apply elem_of_nil in Hx.
           ++ apply list_elem_of_singleton in Hx as ->. right.
              split; [left | done].
        -- left. eauto.
      * right. split; [by right | done].
    + intros [(xs & Hxs & Hx) | [Hx Hc]].
      * left. destruct (decide (column_index y.2 = c)) as [<- | Hne].
        -- eexists. rewrite lookup_insert_eq. split; [done |].
           rewrite Hxs. simpl. apply elem_of_app. by left.
        -- exists xs. by rewrite lookup_insert_ne.
      * apply elem_of_cons in Hx as [-> | Hx].
        -- left. subst c. eexists. rewrite lookup_insert_eq. split; [done |].
           apply elem_of_app. right. by apply list_elem_of_singleton.
        -- right. done.
Qed.

Lemma foldl_add_to_col_keys l : forall m c,
  is_Some (m !! c) -> is_Some (foldl add_to_col m l !! c).
Proof.
  induction l as [| y l IH]; intros m c Hm; simpl; [done |].
  apply IH. unfold add_to_col.
  destruct (decide (column_index y.2 = c)) as [<- | Hne].
  - rewrite lookup_insert_eq. eauto.
  - by rewrite lookup_insert_ne.
Qed.

End Views.

(** C10.  The board of [index] is built from the database after the
    rollover: every task of today is listed under its column index,
    archived or not; whatever is listed under a column is a task of today
    with that column index; and the five columns of the board are always
    present. *)
Theorem index_lists_today today now s i t :
  let v := (index today now s).1 in
  let s' := (index today now s).2 in
  s' = check_rollover_and_archive today now s
  /\ (tasks s' !! i = Some t -> task_date t = today ->
      exists l, tasks_by_col v !! column_index t = Some l /\ (i, t) ∈ l)
  /\ (forall c l, tasks_by_col v !! c = Some l -> (i, t) ∈ l ->
        tasks s' !! i = Some t /\ task_date t = today /\ column_index t = c)
  /\ (forall c, 0 <= c < 5 -> is_Some (tasks_by_col v !! c)).
Proof.
  intros v s'. subst v s'. unfold index. cbv zeta. simpl.
  set (s1 := check_rollover_and_archive today now s).
  split; [done |]. split; [| split].
  - intros Hl Hd.
    apply (foldl_add_to_col _ _ (column_index t) (i, t)). right.
    split; [| done]. apply elem_of_filter_rows. split; [done |].
    simpl. by apply Z.eqb_eq.
  - intros c l Hc Hin.
    assert (Hex : exists xs,
               foldl add_to_col (empty_cols (length (board_columns s1)))
                 (List.filter (fun it : Z * Task => task_date it.2 =? today)
                    (rows (tasks s1))) !! c = Some xs /\ (i, t) ∈ xs)
      by eauto.
    apply foldl_add_to_col in Hex as [(xs & Hxs & Hx) | [Hx Hcol]].
    + rewrite empty_cols_lookup in Hxs. case_decide; [| done].
      injection Hxs as <-. by apply elem_of_nil in Hx.
    + apply elem_of_filter_rows in Hx as [Hl Hd]. simpl in Hd, Hcol.
      apply Z.eqb_eq in Hd. done.
  - intros c Hc. apply foldl_add_to_col_keys.
    rewrite empty_cols_lookup, board_columns_length.
    rewrite decide_True by lia. eauto.
Qed.

Lemma index_lists_today_witness :
  exists l, tasks_by_col (index dec30 7 dec30_db).1 !! 6 = Some l
            /\ (2, dec30_archived) ∈ l.
Proof.
  destruct (index_lists_today dec30 7 dec30_db 2 dec30_archived)
    as (_ & H & _).
  apply H; reflexivity.
Defined.

(** X18.  The week view lists exactly the archived tasks of that ISO year
    and ISO week, under the title "Week w, y", and writes nothing after the
    rollover. *)
Lemma archive_week_spec today now year week y w s :
  int_of_text year = Some y -> int_of_text week = Some w ->
  exists l,
    archive_week today now year week s
    = (Return (l, "Week " +:+ pretty w +:+ ", " +:+ pretty y),
       check_rollover_and_archive today now s)
    /\ forall i t,
         (i, t) ∈ l <->
         tasks (check_rollover_and_archive today now s) !! i = Some t
         /\ archived t = true
         /\ (isocalendar (task_date t)).1.1 = y
         /\ (isocalendar (task_date t)).1.2 = w.
Proof.
  intros Hy Hw. unfold archive_week. rewrite Hy, Hw. cbv zeta.
  eexists. split; [reflexivity |]. intros i t.
  rewrite list_elem_of_In, filter_In, <- list_elem_of_In, elem_of_filter_rows.
  simpl. rewrite andb_true_iff, !Z.eqb_eq. tauto.
Qed.

(** The day view: every task of that date, archived or not. *)
Lemma archive_day_spec today now day d s :
  fromisoformat day = Some d ->
  exists l,
    (archive_day today now day s).1 = Return (l, day)
    /\ forall i t,
         (i, t) ∈ l <->
         tasks (check_rollover_and_archive today now s) !! i = Some t
         /\ task_date t = d.
Proof.
  intros Hd. unfold archive_day. rewrite Hd. cbv zeta.
  eexists. split; [reflexivity |]. intros i t.
  rewrite elem_of_filter_rows. simpl. by rewrite Z.eqb_eq.
Qed.

(** C7.  On 2024-12-30, with an open and an archived task of that day, the
    day view of 2024-12-30 lists both, the open one included, while the
    week view of ISO week 1 of 2025 lists the archived one only. *)
Theorem archive_day_lists_open_task :
  (archive_day dec30 7 "2024-12-30" dec30_db).1
  = Return ([(1, dec30_open); (2, dec30_archived)], "2024-12-30")
  /\ archived dec30_open = false
  /\ (archive_week dec30 7 "2025" "1" dec30_db).1
     = Return ([(2, dec30_archived)], "Week 1, 2025").
Proof. repeat split; reflexivity. Qed.

(** * Further properties *)

(** ** The rollover on any database *)

Section RolloverAnywhere.

Variables (today : date) (now : timestamp).

Lemma rollover_watermark_ge s :
  valid_date today = true ->
  exists W, watermark (check_rollover_and_archive today now s) = Some W
            /\ today <= W.
Proof.
  intros Hv. destruct (watermark s) as [W |] eqn:HW.
  - exists (Z.max W today). split; [by apply rollover_watermark | lia].
  - exists today. rewrite (rollover_reset _ _ _ HW).
    split; [by apply watermark_Setting_set | lia].
Qed.

(** X1.  A second rollover on the same day does nothing. *)
Theorem rollover_idempotent now' s :
  valid_date today = true ->
  check_rollover_and_archive today now'
    (check_rollover_and_archive today now s)
  = check_rollover_and_archive today now s.
Proof.
  intros Hv. destruct (rollover_watermark_ge s Hv) as (W & HW & Hle).
  rewrite (rollover_from today now' _ _ HW).
  by leb_true today W.
Qed.

(** X2.  After a rollover the watermark reads as a date, today or later. *)
Theorem rollover_leaves_watermark s :
  valid_date today = true ->
  exists W, watermark (check_rollover_and_archive today now s) = Some W
            /\ today <= W
            /\ (forall W0, watermark s = Some W0 -> W = Z.max W0 today)
            /\ (watermark s = None -> W = today).
Proof.
  intros Hv. destruct (watermark s) as [W0 |] eqn:HW.
  - exists (Z.max W0 today). split; [by apply rollover_watermark |].
    split; [lia |]. split; [by intros ? [= <-] | done].
  - exists today. rewrite (rollover_reset _ _ _ HW).
    split; [by apply watermark_Setting_set |].
    split; [lia |]. split; [done | done].
Qed.

(** X3.  The rollover never touches a task of today or of a later day,
    whatever the watermark is. *)
Theorem rollover_spares_today s i t :
  tasks s !! i = Some t -> today <= task_date t ->
  tasks (check_rollover_and_archive today now s) !! i = Some t.
Proof.
  intros Hl Hd. pose proof (rollover_row today now s i) as Hrow.
  rewrite Hl in Hrow. destruct Hrow as [Hr | (_ & Hlt & _)]; [done | lia].
Qed.

(** X4.  The rollover keeps the set of tasks, and on every task everything but
    [archived] and [archived_at]; a task it archives was open, and one that
    was archived stays as it was. *)
Theorem rollover_keeps_rows s i :
  match tasks s !! i with
  | None => tasks (check_rollover_and_archive today now s) !! i = None
  | Some t =>
      exists t', tasks (check_rollover_and_archive today now s) !! i = Some t'
        /\ title t' = title t /\ description t' = description t
        /\ column_index t' = column_index t /\ created_at t' = created_at t
        /\ task_date t' = task_date t
        /\ (archived t = true -> t' = t)
        /\ (archived t' = false -> t' = t)
  end.
Proof.
  pose proof (rollover_row today now s i) as Hrow.
  destruct (tasks s !! i) as [t |]; [| done].
  destruct Hrow as [Hr | (Hr & _ & Ha)].
  - exists t. by repeat split.
  - exists (set_archived now t). rewrite Ha. by repeat split.
Qed.

End RolloverAnywhere.

Lemma rollover_idempotent_witness :
  check_rollover_and_archive jan13 9 (check_rollover_and_archive jan13 7 corrupt_db)
  = check_rollover_and_archive jan13 7 corrupt_db.
Proof. apply rollover_idempotent. reflexivity. Defined.

Lemma rollover_leaves_watermark_witness :
  exists W, watermark (check_rollover_and_archive jan05 7 jan10_db) = Some W
            /\ jan05 <= W.
Proof.
  destruct (rollover_leaves_watermark jan05 7 jan10_db) as (W & HW & Hle & _);
    [reflexivity |].
  exists W. split; [exact HW | exact Hle].
Defined.

Lemma rollover_spares_today_witness :
  tasks (check_rollover_and_archive jan10 7 corrupt_db) !! 1 = Some task_T1.
Proof.
  apply rollover_spares_today; [reflexivity | simpl; dates; lia].
Defined.

(** ** What no request does *)

Section Requests.

Variables (today : date) (now : timestamp).

(** A request, after its rollover, leaves a row alone, or changes or
    deletes an editable row (keeping its date and its archived state), or
    adds an open row of today under an unused id. *)
Lemma serve_row r s i :
  let s1 := check_rollover_and_archive today now s in
  let s' := serve today now r s in
  tasks s' !! i = tasks s1 !! i
  \/ (exists t1, tasks s1 !! i = Some t1 /\ editable today t1 = true
        /\ ((tasks s' !! i = None /\ exists q, r = Req (OpDeleteTask q))
            \/ exists t', tasks s' !! i = Some t'
                 /\ task_date t' = task_date t1
                 /\ created_at t' = created_at t1
                 /\ archived t' = false))
  \/ (tasks s1 !! i = None
      /\ (exists q, r = Req (OpAddTask q))
      /\ exists t', tasks s' !! i = Some t' /\ task_date t' = today
                    /\ archived t' = false /\ created_at t' = now).
Proof.
  intros s1 s'. subst s1 s'. unfold serve, run, editable.
  destruct r as [op | method cols];
    [destruct op | destruct method];
    unfold index, add_task, move_task, edit_task, delete_task,
      archive_index, archive_day, archive_week, archive_month, archive_year,
      settings_route, query_get;
    cbv zeta; generalize (check_rollover_and_archive today now s); intros s1;
    repeat case_match; simplify_eq/=; auto.
  - (* add_task *)
    destruct (decide (next_id (tasks s1) = i)) as [<- | Hne].
    + right. right. rewrite next_id_fresh, lookup_insert_eq. eauto 10.
    + left. by rewrite lookup_insert_ne.
  - (* move_task *)
    match goal with H : tasks s1 !! ?j = Some ?t |- _ =>
      destruct (decide (j = i)) as [<- | Hne];
        [right; left; exists t | left; by rewrite lookup_insert_ne]
    end.
    rewrite lookup_insert_eq.
    match goal with H : _ || _ = false |- _ =>
      rewrite H; apply orb_false_elim in H as [_ Ha]
    end.
    split; [done |]. split; [done |]. right. eauto 10.
  - (* edit_task *)
    match goal with H : tasks s1 !! ?j = Some ?t |- _ =>
      destruct (decide (j = i)) as [<- | Hne];
        [right; left; exists t | left; by rewrite lookup_insert_ne]
    end.
    rewrite lookup_insert_eq.
    match goal with H : _ || _ = false |- _ =>
      rewrite H; apply orb_false_elim in H as [_ Ha]
    end.
    split; [done |]. split; [done |]. right. eauto 10.
  - (* delete_task *)
    match goal with H : tasks s1 !! ?j = Some ?t |- _ =>
      destruct (decide (j = i)) as [<- | Hne];
        [right; left; exists t | left; by rewrite lookup_delete_ne]
    end.
    rewrite lookup_delete_eq.
    match goal with H : _ || _ = false |- _ => rewrite H end.
    split; [done |]. split; [done |]. left. eauto.
Qed.

(** X5.  An archived task is never changed and never deleted, by any request
    at any clock reading. *)
Theorem archived_rows_are_final r s i t :
  tasks s !! i = Some t -> archived t = true ->
  tasks (serve today now r s) !! i = Some t.
Proof.
  intros Hl Ha.
  assert (H1 : tasks (check_rollover_and_archive today now s) !! i = Some t).
  { pose proof (rollover_row today now s i) as Hrow. rewrite Hl in Hrow.
    destruct Hrow as [Hr | (_ & _ & Hf)]; [done | congruence]. }
  destruct (serve_row r s i) as [He | [(t1 & Ht1 & Hed & _) | (Hn & _)]].
  - by rewrite He.
  - rewrite H1 in Ht1. injection Ht1 as <-. unfold editable in Hed.
    rewrite Ha, orb_true_r in Hed. done.
  - congruence.
Qed.

(** X6.  No request changes the date or the creation time of a task, and none
    takes the archived flag back. *)
Theorem task_date_is_fixed r s i t t' :
  tasks s !! i = Some t -> tasks (serve today now r s) !! i = Some t' ->
  task_date t' = task_date t /\ created_at t' = created_at t
  /\ (archived t = true -> archived t' = true).
Proof.
  intros Hl Hl'.
  pose proof (rollover_row today now s i) as Hrow. rewrite Hl in Hrow.
  assert (H1 : exists t1,
             tasks (check_rollover_and_archive today now s) !! i = Some t1
             /\ task_date t1 = task_date t /\ created_at t1 = created_at t
             /\ (archived t = true -> archived t1 = true)).
  { destruct Hrow as [Hr | (Hr & _ & Ha)]; eexists; (split; [exact Hr |]);
      simpl; auto. }
  destruct H1 as (t1 & H1 & Hd & Hc & Ha).
  destruct (serve_row r s i) as [He | [(t2 & Ht2 & Hed & Hch) | (Hn & _)]].
  - rewrite Hl', H1 in He. injection He as ->. done.
  - rewrite H1 in Ht2. injection Ht2 as <-.
    destruct Hch as [[Hnone _] | (t3 & Ht3 & Hd3 & Hc3 & _)]; [congruence |].
    rewrite Hl' in Ht3. injection Ht3 as <-.
    split; [congruence |]. split; [congruence |].
    intros Hat. specialize (Ha Hat). unfold editable in Hed.
    rewrite Ha, orb_true_r in Hed. done.
  - congruence.
Qed.

(** X7.  Only [delete_task] removes a task and only [add_task] adds one; the
    task [delete_task] removes is an open task of today. *)
Theorem only_add_and_delete_change_ids r s i :
  (forall t, tasks s !! i = Some t -> tasks (serve today now r s) !! i = None ->
     (exists q, r = Req (OpDeleteTask q))
     /\ task_date t = today /\ archived t = false)
  /\ (tasks s !! i = None -> is_Some (tasks (serve today now r s) !! i) ->
      exists q, r = Req (OpAddTask q)).
Proof.
  pose proof (rollover_row today now s i) as Hrow.
  split.
  - intros t Hl Hnone. rewrite Hl in Hrow.
    destruct (serve_row r s i) as [He | [(t1 & Ht1 & Hed & Hch) | (Hn & _)]].
    + rewrite Hnone in He. destruct Hrow as [Hr | [Hr _]]; congruence.
    + destruct Hch as [[_ Hq] | (t' & Ht' & _)]; [| congruence].
      split; [done |]. unfold editable in Hed.
      apply negb_true_iff, orb_false_elim in Hed as [Hd Ha].
      apply negb_false_iff, Z.eqb_eq in Hd.
      destruct Hrow as [Hr | (Hr & Hlt & _)]; rewrite Ht1 in Hr;
        injection Hr as ->; [done |].
      simpl in Hd. lia.
    + destruct Hrow as [Hr | [Hr _]]; congruence.
  - intros Hl Hsome. rewrite Hl in Hrow.
    destruct (serve_row r s i) as [He | [(t1 & Ht1 & _) | (_ & Hq & _)]].
    + rewrite He, Hrow in Hsome. by destruct Hsome.
    + congruence.
    + done.
Qed.

(** X8.  Requests write two settings only: every request may move the
    watermark, and a POST to the settings page writes the column names. *)
Theorem settings_written r s k :
  k <> LAST_ACTIVE ->
  k <> "columns" \/ (forall cols, r <> ReqSettings POST cols) ->
  Setting_get k (serve today now r s) = Setting_get k s.
Proof.
  intros Hk Hcols.
  assert (H1 : Setting_get k (check_rollover_and_archive today now s)
               = Setting_get k s).
  { unfold check_rollover_and_archive, Setting_set, Setting_get.
    repeat case_match; simpl; by rewrite ?lookup_insert_ne. }
  rewrite <- H1. destruct r as [op | method cols].
  - unfold serve, Setting_get.
    by destruct (run_after_rollover today now op s) as [-> _].
  - destruct method; [done |]. unfold serve, settings_route. cbv zeta. simpl.
    destruct Hcols as [Hc | Hc]; [| by destruct (Hc cols)].
    unfold Setting_get, Setting_set. simpl. by rewrite lookup_insert_ne.
Qed.

End Requests.

(** An archived task of 2024-12-30: a move request on that very day is
    refused and leaves it as it is. *)
Lemma archived_rows_are_final_witness :
  tasks (serve dec30 7
           (Req (OpMoveTask
                   (json_request
                      {| p_id := Val 2; p_title := Absent;
                         p_description := Absent;
                         p_column_index := Val (PInt 0) |}))) dec30_db) !! 2
  = Some dec30_archived.
Proof. apply archived_rows_are_final; reflexivity. Defined.

Lemma task_date_is_fixed_witness :
  task_date (set_text "" (Some "") task_T1) = task_date task_T1
  /\ created_at (set_text "" (Some "") task_T1) = created_at task_T1.
Proof.
  destruct (task_date_is_fixed jan10 7 (Req (OpEditTask edit_1_untitled))
              jan10_db 1 task_T1 (set_text "" (Some "") task_T1))
    as (Hd & Hc & _); [reflexivity | reflexivity |].
  split; [exact Hd | exact Hc].
Defined.

Lemma only_add_and_delete_change_ids_witness :
  exists q, Req (OpAddTask add_col_7) = Req (OpAddTask q).
Proof.
  destruct (only_add_and_delete_change_ids jan10 7 (Req (OpAddTask add_col_7))
              jan10_db 2) as [_ H].
  apply H; [reflexivity | by eexists].
Defined.

Lemma settings_written_witness :
  Setting_get "columns"
    (serve jan13 7 (Req (OpAddTask add_col_7)) jan10_db)
  = Setting_get "columns" jan10_db.
Proof.
  apply settings_written; [discriminate |]. right. intros cols. discriminate.
Defined.

(** ** The task handlers on an open task of today *)

Section OpenTask.

Variables (today : date) (now : timestamp) (s : db) (i : Z) (t : Task).

Hypothesis Hrow : tasks s !! i = Some t.
Hypothesis Hdate : task_date t = today.
Hypothesis Hopen : archived t = false.

Lemma open_task_after_rollover :
  tasks (check_rollover_and_archive today now s) !! i = Some t.
Proof.
  pose proof (rollover_row today now s i) as Hr. rewrite Hrow in Hr.
  destruct Hr as [Hr | (_ & Hlt & _)]; [done | lia].
Qed.

Lemma open_task_gate : negb (task_date t =? today) || archived t = false.
Proof. rewrite Hopen, orb_false_r. apply negb_false_iff, Z.eqb_eq, Hdate. Qed.

(** X9.  [move_task] puts the task into the column asked for, whatever
    number that is among those SQLite can store (there is no check against
    the columns of the board), and changes nothing else; a number SQLite
    cannot store raises [OverflowError] and the task keeps its column. *)
Theorem move_task_moves r data c :
  json r = Some data -> get (p_id data) = Some i ->
  py_int (get (p_column_index data)) = inl c ->
  (in_int64 c = true ->
   (move_task today now r s).1 = Return (200, BOk)
   /\ tasks (move_task today now r s).2 !! i = Some (set_column_index c t)
   /\ (forall j, j <> i ->
         tasks (move_task today now r s).2 !! j
         = tasks (check_rollover_and_archive today now s) !! j)
   /\ settings (move_task today now r s).2
      = settings (check_rollover_and_archive today now s))
  /\ (in_int64 c = false ->
      move_task today now r s
      = (Raise OverflowError, check_rollover_and_archive today now s)
      /\ tasks (move_task today now r s).2 !! i = Some t).
Proof.
  intros Hj Hid Hc. unfold move_task, query_get. cbv zeta.
  rewrite Hj, Hid, Hc, open_task_after_rollover, open_task_gate.
  split; intros ->; simpl.
  - rewrite lookup_insert_eq. repeat split.
    intros j Hne. by rewrite lookup_insert_ne.
  - split; [done | apply open_task_after_rollover].
Qed.



End OpenTask.

(** X12.  Deleting a task that [add_task] has just added, on the same day,
    leaves the database as the rollover of the [add_task] request left it. *)
Theorem add_then_delete today now now' r r' s d :
  valid_date today = true ->
  (add_task today now r s).1 = Return (200, BTask d) ->
  get (p_id (json_or_form r')) = Some (d_id d) ->
  delete_task today now' r' (add_task today now r s).2
  = (Return (200, BOk), check_rollover_and_archive today now s).
Proof.
  intros Hv Hadd Hid.
  destruct (add_task_inserts _ _ _ _ _ Hadd)
    as (t & _ & Hfresh & -> & _ & _ & _ & _ & _ & Hd & Ha & _).
  set (s1 := check_rollover_and_archive today now s) in *.
  destruct (rollover_watermark_ge today now s Hv) as (W & HW & Hle).
  fold s1 in HW.
  set (sa := {| settings := settings s1;
                tasks := <[d_id d := t]> (tasks s1) |}).
  assert (Hsa : check_rollover_and_archive today now' sa = sa).
  { rewrite (rollover_from today now' sa W) by done. by leb_true today W. }
  unfold delete_task, query_get. cbv zeta. rewrite Hsa, Hid. simpl.
  rewrite lookup_insert_eq, Hd, Ha, Z.eqb_refl. simpl.
  rewrite delete_insert_id by done. by destruct s1.
Qed.

Lemma move_task_moves_witness :
  tasks (move_task jan10 7 move_1_to_3 jan10_db).2 !! 1
  = Some (set_column_index 3 task_T1).
Proof.
  pose proof (move_task_moves jan10 7 jan10_db 1 task_T1
                eq_refl eq_refl eq_refl move_1_to_3
                {| p_id := Val 1; p_title := Absent; p_description := Absent;
                   p_column_index := Val (PInt 3) |} 3
                eq_refl eq_refl eq_refl) as [H _].
  destruct (H eq_refl) as (_ & H' & _).
  exact H'.
Defined.



Lemma add_then_delete_witness :
  delete_task jan13 9 delete_2 (add_task jan13 7 add_col_7 jan10_db).2
  = (Return (200, BOk), check_rollover_and_archive jan13 7 jan10_db).
Proof.
  apply (add_then_delete jan13 7 9 add_col_7 delete_2 jan10_db
           (to_dict 2 {| title := "x"; description := Some "";
                         column_index := 7; created_at := 7;
                         task_date := jan13;
                         archived := false; archived_at := None |}));
    reflexivity.
Defined.

(** ** The board *)

Section Board.

Implicit Types (cols : list string) (m : gmap Z (list (Z * Task))).

Lemma placeholders_cons n :
  (n < 5)%nat ->
  placeholders n = ("Column " +:+ pretty (n + 1)%nat) :: placeholders (S n).
Proof.
  intros Hn. unfold placeholders.
  replace (5 - n)%nat with (S (5 - S n)) by lia. reflexivity.
Qed.

Lemma pad_cols_spec cols : pad_cols cols = cols ++ placeholders (length cols).
Proof.
  funelim (pad_cols cols).
  - match goal with
    | IH : pad_cols _ = _ ++ placeholders _ |- _ => rewrite IH
    end.
    rewrite length_app, <- app_assoc. simpl.
    rewrite (placeholders_cons (length cols)) by done.
    by replace (length cols + 1)%nat with (S (length cols)) by lia.
  - unfold placeholders. replace (5 - length cols)%nat with 0%nat by lia.
    simpl. by rewrite app_nil_r.
Qed.

Lemma filter_StronglySorted {A} (R : A -> A -> Prop) (p : A -> bool) l :
  StronglySorted R l -> StronglySorted R (List.filter p l).
Proof.
  induction 1 as [| x l Hs IH Hall]; simpl; [constructor |].
  destruct (p x); [| done]. constructor; [done |].
  rewrite List.Forall_forall in *. intros y Hy.
  apply filter_In in Hy as [Hy _]. auto.
Qed.

(** The rows come in strictly ascending order of their ids. *)
Lemma rows_ascending (tbl : gmap Z Task) :
  StronglySorted (fun a b : Z * Task => a.1 < b.1) (rows tbl).
Proof.
  assert (Htotal : Total id_le) by (intros a b; unfold id_le; lia).
  assert (Htrans : Transitive id_le) by (intros a b c; unfold id_le; lia).
  pose proof (StronglySorted_merge_sort id_le (map_to_list tbl)) as Hs.
  assert (Hnd : NoDup (rows tbl).*1).
  { unfold rows. rewrite merge_sort_Permutation.
    apply NoDup_fst_map_to_list. }
  fold (rows tbl) in Hs. revert Hs Hnd.
  induction (rows tbl) as [| x l IH]; intros Hs Hnd; [constructor |].
  inversion Hs as [| ? ? Hs' Hall]. subst.
  rewrite fmap_cons in Hnd. apply NoDup_cons in Hnd as [Hx Hnd].
  constructor; [by apply IH |].
  rewrite List.Forall_forall in *. intros y Hy.
  specialize (Hall y Hy). unfold id_le in Hall.
  assert (x.1 <> y.1).
  { intros Heq. apply Hx. rewrite Heq. apply list_elem_of_fmap.
    exists y. split; [done |]. by apply list_elem_of_In. }
  lia.
Qed.

(** What the loop over the tasks leaves under a key. *)
Lemma foldl_add_to_col_lookup l : forall m c,
  foldl add_to_col m l !! c
  = match m !! c,
          List.filter (fun it : Z * Task => column_index it.2 =? c) l with
    | Some xs, f => Some (xs ++ f)
    | None, [] => None
    | None, f => Some f
    end.
Proof.
  induction l as [| y l IH]; intros m c; simpl.
  - destruct (m !! c); [by rewrite app_nil_r | done].
  - rewrite IH. unfold add_to_col at 1.
    destruct (Z.eqb_spec (column_index y.2) c) as [<- | Hne].
    + rewrite lookup_insert_eq.
      destruct (m !! column_index y.2); simpl; by rewrite <- ?app_assoc.
    + by rewrite lookup_insert_ne.
Qed.

End Board.

(** X13.  The board always has five column names: the configured names that
    are not empty, five of them at most, then "Column k" for each position k
    that is left. *)
Theorem board_columns_spec s :
  let names :=
    List.filter (fun c => negb (String.eqb c ""))
      (split_on ","%char (default "" (Setting_get "columns" s))) in
  board_columns s = take 5 names ++ placeholders (length (take 5 names))
  /\ length (board_columns s) = 5%nat.
Proof.
  intros names. split; [| apply board_columns_length].
  unfold board_columns. cbv zeta. fold names. rewrite pad_cols_spec.
  destruct (Nat.ltb_spec 5 (length names)) as [Hlt | Hge]; [done |].
  by rewrite take_ge by lia.
Qed.

(** X14.  Under each of the five columns the board lists, in ascending order
    of id, exactly the tasks of today with that column index; a key outside
    the five columns exists only if a task of today carries it. *)
Theorem index_columns today now s c :
  let s1 := check_rollover_and_archive today now s in
  let of_column :=
    List.filter (fun it : Z * Task => column_index it.2 =? c)
      (List.filter (fun it : Z * Task => task_date it.2 =? today)
         (rows (tasks s1))) in
  StronglySorted (fun a b : Z * Task => a.1 < b.1) of_column
  /\ tasks_by_col (index today now s).1 !! c
     = if decide (0 <= c < 5) then Some of_column
       else match of_column with [] => None | _ => Some of_column end.
Proof.
  intros s1 of_column. split.
  - subst of_column. do 2 apply filter_StronglySorted. apply rows_ascending.
  - unfold index. cbv zeta. simpl. fold s1.
    rewrite foldl_add_to_col_lookup, empty_cols_lookup, board_columns_length.
    fold of_column. change (Z.of_nat 5) with 5.
    case_decide; [done |]. by destruct of_column.
Qed.

(** ** The archive views *)

(** X15.  [archive_index] lists each date that has an archived task once, the
    latest first, and no other date. *)
Theorem archive_index_spec today now s :
  exists dates,
    (archive_index today now s).1 = isoformat <$> dates
    /\ StronglySorted (fun a b : date => b < a) dates
    /\ (forall d, d ∈ dates <->
          exists i t,
            tasks (check_rollover_and_archive today now s) !! i = Some t
            /\ archived t = true /\ task_date t = d)
    /\ (archive_index today now s).2
       = check_rollover_and_archive today now s.
Proof.
  unfold archive_index. cbv zeta. simpl.
  set (s1 := check_rollover_and_archive today now s).
  set (ds := (fun it : Z * Task => task_date it.2)
               <$> List.filter (fun it : Z * Task => archived it.2)
                     (rows (tasks s1))).
  exists (merge_sort date_ge (remove_dups ds)).
  split; [done |]. split; [| split; [| done]].
  - assert (Htotal : Total date_ge) by (intros a b; unfold date_ge; lia).
    assert (Htrans : Transitive date_ge) by (intros a b c; unfold date_ge; lia).
    pose proof (StronglySorted_merge_sort date_ge (remove_dups ds)) as Hs.
    assert (Hnd : NoDup (merge_sort date_ge (remove_dups ds))).
    { rewrite merge_sort_Permutation. apply NoDup_remove_dups. }
    revert Hs Hnd.
    induction (merge_sort date_ge (remove_dups ds)) as [| x l IH];
      intros Hs Hnd; [constructor |].
    inversion Hs as [| ? ? Hs' Hall]. subst.
    apply NoDup_cons in Hnd as [Hx Hnd].
    constructor; [by apply IH |].
    rewrite List.Forall_forall in *. intros y Hy.
    specialize (Hall y Hy). unfold date_ge in Hall.
    assert (x <> y) by (intros ->; by apply Hx, list_elem_of_In).
    lia.
  - intros d. rewrite merge_sort_Permutation, elem_of_remove_dups.
    subst ds. rewrite list_elem_of_fmap. split.
    + intros ([i t] & -> & Hin). apply elem_of_filter_rows in Hin as [Hl Ha].
      exists i, t. done.
    + intros (i & t & Hl & Ha & <-). exists (i, t). split; [done |].
      by apply elem_of_filter_rows.
Qed.

(** X16.  The year view and the month view list exactly the archived tasks of
    that calendar year, and of that month of it; what the month view lists,
    the year view of the same year lists too. *)
Theorem archive_year_month_spec today now year month y m s :
  int_of_text year = Some y -> int_of_text month = Some m ->
  exists ly lm,
    (archive_year today now year s).1 = Return (ly, pretty y)
    /\ (archive_month today now year month s).1
       = Return (lm, pretty m +:+ "/" +:+ pretty y)
    /\ (forall i t,
          (i, t) ∈ ly <->
          tasks (check_rollover_and_archive today now s) !! i = Some t
          /\ archived t = true /\ year_of (task_date t) = y)
    /\ (forall i t,
          (i, t) ∈ lm <->
          tasks (check_rollover_and_archive today now s) !! i = Some t
          /\ archived t = true /\ year_of (task_date t) = y
          /\ month_of (task_date t) = m)
    /\ (forall it, it ∈ lm -> it ∈ ly).
Proof.
  intros Hy Hm. unfold archive_year, archive_month. rewrite Hy, Hm. cbv zeta.
  eexists. eexists. split; [reflexivity |]. split; [reflexivity |].
  assert (Hyear : forall i t,
    (i, t) ∈ List.filter
               (fun it : Z * Task => year_of (task_date it.2) =? y)
               (List.filter (fun it : Z * Task => archived it.2)
                  (rows (tasks (check_rollover_and_archive today now s))))
    <-> tasks (check_rollover_and_archive today now s) !! i = Some t
        /\ archived t = true /\ year_of (task_date t) = y).
  { intros i t.
    rewrite list_elem_of_In, filter_In, <- list_elem_of_In, elem_of_filter_rows.
    simpl. rewrite Z.eqb_eq. tauto. }
  assert (Hmonth : forall i t,
    (i, t) ∈ List.filter
               (fun it : Z * Task =>
                  (year_of (task_date it.2) =? y)
                  && (month_of (task_date it.2) =? m))
               (List.filter (fun it : Z * Task => archived it.2)
                  (rows (tasks (check_rollover_and_archive today now s))))
    <-> tasks (check_rollover_and_archive today now s) !! i = Some t
        /\ archived t = true /\ year_of (task_date t) = y
        /\ month_of (task_date t) = m).
  { intros i t.
    rewrite list_elem_of_In, filter_In, <- list_elem_of_In, elem_of_filter_rows.
    simpl. rewrite andb_true_iff, !Z.eqb_eq. tauto. }
  simpl. split; [exact Hyear |]. split; [exact Hmonth |].
  intros [i t] Hin. apply Hyear. apply Hmonth in Hin. tauto.
Qed.

Lemma archive_year_month_spec_witness :
  exists ly lm,
    (archive_year dec30 7 "2024" dec30_db).1 = Return (ly, "2024")
    /\ (archive_month dec30 7 "2024" "12" dec30_db).1
       = Return (lm, "12/2024")
    /\ (2, dec30_archived) ∈ lm /\ (2, dec30_archived) ∈ ly.
Proof.
  destruct (archive_year_month_spec dec30 7 "2024" "12" 2024 12 dec30_db)
    as (ly & lm & Hy & Hm & _ & Hlm & Hsub); [reflexivity | reflexivity |].
  exists ly, lm. split; [exact Hy |]. split; [exact Hm |].
  assert (Hin : (2, dec30_archived) ∈ lm).
  { apply Hlm. repeat split; reflexivity. }
  split; [exact Hin | exact (Hsub _ Hin)].
Defined.

Example archive_index_dec30 :
  (archive_index dec30 7 dec30_db).1 = ["2024-12-30"].
Proof. reflexivity. Qed.

(** ** [init_db] *)

Section InitDb.

Variable today : date.

Lemma isoformat_not_empty : isoformat today <> "".
Proof.
  unfold isoformat, pad4. destruct (ord2ymd today) as [[y m] dd].
  cbv [String.append]. discriminate.
Qed.

Lemma Setting_get_set j v k s :
  Setting_get k (Setting_set j v s)
  = if decide (k = j) then Some v else Setting_get k s.
Proof.
  unfold Setting_get, Setting_set. simpl. case_decide as Hk.
  - subst. apply lookup_insert_eq.
  - by apply lookup_insert_ne.
Qed.

(** What [init_db] leaves under a key. *)
Lemma init_db_lookup s k :
  Setting_get k (init_db today s)
  = if decide (k = "columns") then
      Some match Setting_get "columns" s with
           | Some v =>
               if String.eqb v "" then "Backlog,To Do,In Progress,Review,Done"
               else v
           | None => "Backlog,To Do,In Progress,Review,Done"
           end
    else if decide (k = LAST_ACTIVE) then
      Some match Setting_get LAST_ACTIVE s with
           | Some v => if String.eqb v "" then isoformat today else v
           | None => isoformat today
           end
    else Setting_get k s.
Proof.
  unfold init_db. cbv zeta.
  set (s' := match Setting_get "columns" s with
             | Some cols => _ | None => _ end).
  assert (Hs' : forall j,
             Setting_get j s'
             = if decide (j = "columns") then
                 Some match Setting_get "columns" s with
                      | Some v =>
                          if String.eqb v ""
                          then "Backlog,To Do,In Progress,Review,Done" else v
                      | None => "Backlog,To Do,In Progress,Review,Done"
                      end
               else Setting_get j s).
  { intros j. subst s'.
    destruct (Setting_get "columns" s) as [v |] eqn:Hc;
      [destruct (String.eqb v "") |]; rewrite ?Setting_get_set;
      case_decide; subst; done. }
  rewrite (Hs' LAST_ACTIVE). rewrite decide_False by done.
  destruct (Setting_get LAST_ACTIVE s) as [v |] eqn:Hl;
    [destruct (String.eqb v "") eqn:Hv |];
    rewrite ?Setting_get_set, Hs';
    repeat case_decide; subst; done.
Qed.

(** X19.  [init_db] fills in what is missing and nothing else: tasks and
    settings that have a value stay, and running it again, on whatever day,
    changes nothing. *)
Theorem init_db_fills_gaps s :
  tasks (init_db today s) = tasks s
  /\ (forall k v, Setting_get k s = Some v -> v <> "" ->
        Setting_get k (init_db today s) = Some v)
  /\ (forall k, k <> "columns" -> k <> LAST_ACTIVE ->
        Setting_get k (init_db today s) = Setting_get k s)
  /\ (forall today', init_db today' (init_db today s) = init_db today s).
Proof.
  pose proof isoformat_not_empty as Hiso.
  split; [| split; [| split]].
  - unfold init_db. cbv zeta. by repeat case_match.
  - intros k v Hk Hv. rewrite init_db_lookup. apply String.eqb_neq in Hv.
    repeat case_decide; subst; by rewrite ?Hk, ?Hv.
  - intros k Hc Hl. rewrite init_db_lookup. by rewrite !decide_False.
  - intros today'. unfold init_db at 1. cbv zeta.
    rewrite (init_db_lookup s "columns"), decide_True by done.
    assert (Hc : forall v, v <> "" -> String.eqb v "" = false)
      by (intros v; apply String.eqb_neq).
    replace (String.eqb match Setting_get "columns" s with
                        | Some v =>
                            if String.eqb v ""
                            then "Backlog,To Do,In Progress,Review,Done" else v
                        | None => "Backlog,To Do,In Progress,Review,Done"
                        end "") with false.
    2:{ symmetry. apply Hc.
        destruct (Setting_get "columns" s) as [v |]; [| done].
        by destruct (String.eqb_spec v ""). }
    rewrite (init_db_lookup s LAST_ACTIVE), decide_False, decide_True by done.
    replace (String.eqb match Setting_get LAST_ACTIVE s with
                        | Some v => if String.eqb v "" then isoformat today else v
                        | None => isoformat today
                        end "") with false; [done |].
    symmetry. apply Hc.
    destruct (Setting_get LAST_ACTIVE s) as [v |]; [| done].
    by destruct (String.eqb_spec v "").
Qed.

(** X20.  On a database that has no settings yet, [init_db] sets the five
    default column names and the watermark, and the first rollover of that
    day finds nothing to do. *)
Theorem init_db_fresh now s :
  valid_date today = true ->
  Setting_get "columns" s = None -> Setting_get LAST_ACTIVE s = None ->
  board_columns (init_db today s) = DEFAULT_COLS
  /\ watermark (init_db today s) = Some today
  /\ check_rollover_and_archive today now (init_db today s)
     = init_db today s.
Proof.
  intros Hv Hc Hl.
  assert (Hinit : init_db today s
                  = Setting_set LAST_ACTIVE (isoformat today)
                      (Setting_set "columns"
                         "Backlog,To Do,In Progress,Review,Done" s)).
  { unfold init_db. cbv zeta. rewrite Hc.
    unfold Setting_get, Setting_set in *. simpl.
    by rewrite lookup_insert_ne, Hl. }
  assert (HW : watermark (init_db today s) = Some today).
  { rewrite Hinit. by apply watermark_Setting_set. }
  split; [| split; [done |]].
  - rewrite Hinit. unfold board_columns, Setting_get, Setting_set. simpl.
    rewrite lookup_insert_ne, lookup_insert_eq by done. reflexivity.
  - rewrite (rollover_from _ _ _ _ HW). by leb_true today today.
Qed.

End InitDb.

Lemma init_db_fills_gaps_witness :
  Setting_get LAST_ACTIVE (init_db jan13 corrupt_db) = Some "not-a-date".
Proof.
  destruct (init_db_fills_gaps jan13 corrupt_db) as (_ & H & _).
  apply H; [reflexivity | discriminate].
Defined.

Lemma init_db_fresh_witness :
  board_columns (init_db jan10 {| settings := ∅; tasks := ∅ |}) = DEFAULT_COLS
  /\ watermark (init_db jan10 {| settings := ∅; tasks := ∅ |}) = Some jan10.
Proof.
  destruct (init_db_fresh jan10 7 {| settings := ∅; tasks := ∅ |})
    as (Hb & Hw & _); [reflexivity | reflexivity | reflexivity |].
  split; [exact Hb | exact Hw].
Defined.

(** ** The settings page *)

Section SettingsPage.

Implicit Types (c x : string) (l cols : list string).

Lemma no_comma_String a x :
  no_comma (String a x) <-> a <> ","%char /\ no_comma x.
Proof.
  unfold no_comma. simpl. rewrite not_elem_of_cons.
  split; intros [H1 H2]; (split; [congruence | done]).
Qed.

Lemma split_on_no_comma x : no_comma x -> split_on ","%char x = [x].
Proof.
  induction x as [| a x IH]; intros Hx; [done |].
  apply no_comma_String in Hx as [Ha Hx]. simpl.
  destruct (Ascii.eqb_spec a ","%char) as [-> | _]; [done |].
  by rewrite IH.
Qed.

Lemma split_on_app x rest :
  no_comma x ->
  split_on ","%char (x +:+ "," +:+ rest) = x :: split_on ","%char rest.
Proof.
  induction x as [| a x IH]; intros Hx; [done |].
  apply no_comma_String in Hx as [Ha Hx].
  change (String a x +:+ "," +:+ rest) with (String a (x +:+ "," +:+ rest)).
  simpl. destruct (Ascii.eqb_spec a ","%char) as [-> | _]; [done |].
  by rewrite IH.
Qed.

(** [split] undoes [join] on names without a comma. *)
Lemma split_on_join l :
  l <> [] -> Forall no_comma l -> split_on ","%char (join "," l) = l.
Proof.
  induction l as [| x l IH]; intros Hne Hall; [done |].
  apply Forall_cons in Hall as [Hx Hall].
  destruct l as [| y l]; simpl.
  - by apply split_on_no_comma.
  - rewrite split_on_app by done. f_equal. by apply IH.
Qed.

Lemma lstrip_elem {A} (space : A -> bool) (cs : list A) (e : A) :
  e ∈ lstrip space cs -> e ∈ cs.
Proof.
  induction cs as [| b cs IH]; simpl; [done |].
  destruct (space b); [| done]. intros Hin. right. by apply IH.
Qed.

Lemma strip_elem {A} (space : A -> bool) (cs : list A) (e : A) :
  e ∈ strip space cs -> e ∈ cs.
Proof.
  unfold strip. intros Hin.
  apply list_elem_of_In, in_rev, list_elem_of_In in Hin.
  apply lstrip_elem in Hin.
  apply list_elem_of_In, in_rev, list_elem_of_In in Hin.
  by apply lstrip_elem in Hin.
Qed.

(** The bytes of the characters are the bytes of the text. *)
Lemma utf8_chars_bytes (cs : list ascii) chars :
  utf8_chars cs = Some chars -> concat chars.*2 = cs.
Proof.
  assert (H : forall (n : nat) (cs : list ascii) chars,
             (length cs <= n)%nat -> utf8_chars cs = Some chars ->
             concat chars.*2 = cs).
  { clear. induction n as [| n IH]; intros cs chars Hn Hc.
    - destruct cs; [| simpl in Hn; lia]. by injection Hc as <-.
    - destruct cs as [| a r]; [by injection Hc as <- |].
      cbn [utf8_chars] in Hc. simpl in Hn.
      repeat case_match; try discriminate; subst;
        apply fmap_Some in Hc as (rest & Hl & ->);
        (eapply IH in Hl; [| simpl in Hn; lia]);
        rewrite fmap_cons; cbn [concat app snd]; by rewrite Hl. }
  intros Hc. by apply (H (length cs)).
Qed.

Lemma strip_text_no_comma c : no_comma c -> no_comma (strip_text c).
Proof.
  unfold no_comma, strip_text. intros Hc.
  destruct (utf8_chars (list_ascii_of_string c)) as [chars |] eqn:Hu; [| done].
  rewrite list_ascii_of_string_of_list_ascii. intros Hin. apply Hc.
  rewrite <- (utf8_chars_bytes _ _ Hu).
  apply list_elem_of_In, in_concat in Hin as (bs & Hbs & Hin).
  apply list_elem_of_In, in_concat. exists bs. split; [| done].
  apply list_elem_of_In, list_elem_of_fmap in Hbs as (ch & -> & Hch).
  apply list_elem_of_In, list_elem_of_fmap. exists ch. split; [done |].
  by apply strip_elem in Hch.
Qed.

Lemma pad_empty_spec cols :
  pad_empty cols = cols ++ replicate (5 - length cols) "".
Proof.
  funelim (pad_empty cols).
  - match goal with
    | IH : pad_empty _ = _ ++ replicate _ _ |- _ => rewrite IH
    end.
    rewrite length_app, <- app_assoc. simpl.
    by replace (5 - length cols)%nat with (S (5 - (length cols + 1))) by lia.
  - replace (5 - length cols)%nat with 0%nat by lia. simpl.
    by rewrite app_nil_r.
Qed.

(** The names a POST stores: stripped, the empty ones dropped, five at
    most. *)
Lemma cleaned_names form_column :
  Forall no_comma form_column ->
  let cols :=
    take 5
      (strip_text
         <$> List.filter (fun c => negb (String.eqb (strip_text c) ""))
               form_column) in
  Forall no_comma cols /\ Forall (fun c => c <> "") cols
  /\ (length cols <= 5)%nat.
Proof.
  intros Hall cols. split; [| split].
  - apply Forall_take, Forall_fmap, Forall_forall. intros c Hin.
    apply list_elem_of_In, filter_In in Hin as [Hin _].
    apply strip_text_no_comma.
    rewrite Forall_forall in Hall. by apply Hall, list_elem_of_In.
  - apply Forall_take, Forall_fmap, Forall_forall. intros c Hin.
    apply list_elem_of_In, filter_In in Hin as [_ Hc].
    by apply negb_true_iff, String.eqb_neq in Hc.
  - subst cols. rewrite length_take. lia.
Qed.

Lemma filter_not_empty cols :
  Forall (fun c => c <> "") cols ->
  List.filter (fun c => negb (String.eqb c "")) cols = cols.
Proof.
  induction 1 as [| c cols Hc _ IH]; [done |]. simpl.
  apply String.eqb_neq in Hc. rewrite Hc. simpl. by rewrite IH.
Qed.

End SettingsPage.

(** X21.  Column names sent to the settings page come back: when no name has a
    comma in it, the board shows the names as stored (stripped, the empty
    ones dropped, five at most) followed by its placeholders, and the
    settings page shows them followed by empty fields. *)
Theorem settings_round_trip today now now' form_column s :
  valid_date today = true ->
  Forall no_comma form_column ->
  let cols :=
    take 5
      (strip_text
         <$> List.filter (fun c => negb (String.eqb (strip_text c) ""))
               form_column) in
  let s' := (settings_route today now POST form_column s).2 in
  Setting_get "columns" s' = Some (join "," cols)
  /\ tasks s' = tasks (check_rollover_and_archive today now s)
  /\ board_columns s' = cols ++ placeholders (length cols)
  /\ (settings_route today now' GET [] s').1
     = RenderSettings (cols ++ replicate (5 - length cols) "")
  /\ (settings_route today now' GET [] s').2 = s'.
Proof.
  intros Hv Hall cols s'.
  destruct (cleaned_names form_column Hall) as (Hnc & Hne & Hlen).
  fold cols in Hnc, Hne, Hlen.
  assert (Hget : Setting_get "columns" s' = Some (join "," cols)).
  { subst s'. unfold settings_route. cbv zeta. simpl.
    by rewrite Setting_get_set, decide_True. }
  assert (Hsplit : cols <> [] -> split_on ","%char (join "," cols) = cols)
    by (intros; by apply split_on_join).
  split; [done |]. split; [done |]. split; [| split].
  - unfold board_columns. cbv zeta. rewrite pad_cols_spec, Hget. simpl.
    destruct cols as [| c cols'] eqn:Hcols; [done |].
    rewrite Hsplit by done. rewrite filter_not_empty by done.
    by replace (5 <? length (c :: cols'))%nat with false
      by (symmetry; apply Nat.ltb_ge; lia).
  - unfold settings_route at 1. cbv zeta.
    assert (Hroll : check_rollover_and_archive today now' s' = s').
    { subst s'. unfold settings_route. cbv zeta. simpl.
      destruct (rollover_watermark_ge today now s Hv) as (W & HW & Hle).
      rewrite (rollover_from today now' _ W).
      - by leb_true today W.
      - unfold watermark in *.
        by rewrite Setting_get_set, decide_False. }
    rewrite Hroll, Hget. simpl. rewrite pad_empty_spec.
    destruct cols as [| c cols'] eqn:Hcols; [done |].
    by rewrite Hsplit.
  - unfold settings_route at 1. cbv zeta. simpl.
    subst s'. unfold settings_route. cbv zeta. simpl.
    destruct (rollover_watermark_ge today now s Hv) as (W & HW & Hle).
    rewrite (rollover_from today now' _ W).
    + by leb_true today W.
    + unfold watermark in *. by rewrite Setting_get_set, decide_False.
Qed.

Lemma settings_round_trip_witness :
  board_columns
    (settings_route jan10 7 POST ["  Inbox "; ""; "Doing"; " "] jan10_db).2
  = ["Inbox"; "Doing"; "Column 3"; "Column 4"; "Column 5"].
Proof.
  pose proof (settings_round_trip jan10 7 9 ["  Inbox "; ""; "Doing"; " "]
                jan10_db eq_refl) as H.
  destruct H as (_ & _ & Hb & _).
  - repeat constructor; unfold no_comma; vm_compute;
      intros Hin; repeat (apply elem_of_cons in Hin as [Hin | Hin];
                          [discriminate |]); by apply elem_of_nil in Hin.
  - exact Hb.
Defined.

(** A name with a comma in it comes back as two columns. *)
Example settings_comma_splits :
  board_columns (settings_route jan10 7 POST ["To do, later"] jan10_db).2
  = ["To do"; " later"; "Column 3"; "Column 4"; "Column 5"].
Proof. reflexivity. Qed.

(** ** Day changes *)

(** X22.  A task dated before the watermark and still open is out of reach of
    the rollover: no run of rollovers archives it. *)
Theorem stale_task_stays_open clock : forall s W i t,
  watermark s = Some W ->
  tasks s !! i = Some t -> task_date t < W ->
  Forall (fun c => valid_date c.1 = true) clock ->
  tasks (catch_up_all clock s) !! i = Some t.
Proof.
  induction clock as [| c clock IH]; intros s W i t HW Hl Hd Hv; [done |].
  inversion Hv as [| ? ? Hc Hv']. subst.
  change (catch_up_all (c :: clock) s)
    with (catch_up_all clock (check_rollover_and_archive c.1 c.2 s)).
  apply (IH _ (Z.max W c.1)).
  - by apply rollover_watermark.
  - rewrite (rollover_tasks _ _ _ _ HW), lookup_fmap, Hl. simpl.
    unfold archive_range.
    replace (W <=? task_date t) with false; [done |].
    symmetry. apply Z.leb_gt. lia.
  - lia.
  - done.
Qed.

(** X23.  A task that [add_task] has added today is archived by the first
    request of a later day, unless the clock was behind the watermark when
    it was added: then the rollover of the later day leaves it open. *)
Theorem added_task_next_day today now today' now' r s d :
  valid_date today = true -> valid_date today' = true -> today < today' ->
  (add_task today now r s).1 = Return (200, BTask d) ->
  exists t,
    tasks (add_task today now r s).2 !! d_id d = Some t
    /\ task_date t = today /\ archived t = false
    /\ ((forall W, watermark s = Some W -> W <= today) ->
        tasks (check_rollover_and_archive today' now'
                 (add_task today now r s).2) !! d_id d
        = Some (set_archived now' t))
    /\ (forall W, watermark s = Some W -> today < W ->
        tasks (check_rollover_and_archive today' now'
                 (add_task today now r s).2) !! d_id d
        = Some t).
Proof.
  intros Hv Hv' Hlt Hadd.
  destruct (add_task_inserts _ _ _ _ _ Hadd)
    as (t & _ & Hfresh & -> & _ & _ & _ & _ & _ & Hd & Ha & _).
  set (s1 := check_rollover_and_archive today now s) in *.
  set (sa := {| settings := settings s1;
                tasks := <[d_id d := t]> (tasks s1) |}).
  exists t.
  split; [apply lookup_insert_eq |]. split; [done |]. split; [done |].
  assert (Hwm : watermark sa = watermark s1) by done.
  split.
  - intros HW.
    assert (HW1 : watermark sa = Some today).
    { rewrite Hwm. subst s1. destruct (watermark s) as [W |] eqn:Hs.
      - rewrite (rollover_watermark _ _ _ _ Hs Hv). f_equal.
        specialize (HW W eq_refl). lia.
      - rewrite (rollover_reset _ _ _ Hs). by apply watermark_Setting_set. }
    rewrite (rollover_tasks _ _ _ _ HW1), lookup_fmap.
    change (tasks sa) with (<[d_id d := t]> (tasks s1)).
    rewrite lookup_insert_eq. simpl. unfold archive_range. rewrite Hd, Ha.
    leb_true today today. by ltb_true today today'.
  - intros W HW HltW.
    assert (HW1 : watermark sa = Some W).
    { rewrite Hwm. subst s1. rewrite (rollover_watermark _ _ _ _ HW Hv).
      f_equal. lia. }
    rewrite (rollover_tasks _ _ _ _ HW1), lookup_fmap.
    change (tasks sa) with (<[d_id d := t]> (tasks s1)).
    rewrite lookup_insert_eq. simpl. unfold archive_range. rewrite Hd.
    replace (W <=? today) with false; [done |].
    symmetry. apply Z.leb_gt. lia.
Qed.

Lemma stale_task_stays_open_witness :
  tasks (catch_up_all [(jan12, 5); (jan13, 7)]
           {| settings := {[ LAST_ACTIVE := "2024-01-11" ]};
              tasks := {[ 1 := task_T1 ]} |}) !! 1
  = Some task_T1.
Proof.
  apply (stale_task_stays_open _ _ jan11);
    [reflexivity | reflexivity | simpl; dates; lia | repeat constructor].
Defined.

Lemma added_task_next_day_witness :
  exists t,
    tasks (add_task jan10 7 add_col_7 jan10_db).2 !! 2 = Some t
    /\ tasks (check_rollover_and_archive jan11 9
                (add_task jan10 7 add_col_7 jan10_db).2) !! 2
       = Some (set_archived 9 t).
Proof.
  destruct (added_task_next_day jan10 7 jan11 9 add_col_7 jan10_db
              (to_dict 2 {| title := "x"; description := Some "";
                            column_index := 7; created_at := 7;
                            task_date := jan10;
                            archived := false; archived_at := None |}))
    as (t & Hl & _ & _ & Ha & _);
    [reflexivity | reflexivity | dates; lia | reflexivity |].
  exists t. split; [exact Hl |]. apply Ha.
  intros W HW. vm_compute in HW. injection HW as <-. dates. lia.
Defined.

Lemma archive_week_spec_witness :
  exists l,
    (archive_week dec30 7 "2025" "1" dec30_db).1
    = Return (l, "Week 1, 2025")
    /\ (2, dec30_archived) ∈ l.
Proof.
  destruct (archive_week_spec dec30 7 "2025" "1" 2025 1 dec30_db)
    as (l & Hr & Hl); [reflexivity | reflexivity |].
  exists l. split; [by rewrite Hr |]. apply Hl. repeat split; reflexivity.
Defined.
